(** * jsbgym: flight tasks ([task_advanced.py]) and helpers ([utils.py])

    A shallow embedding of the episode-control logic of [TrajectoryTask]
    and [TurnHeadingControlTask], and of the angle helper of [utils.py].

    Conventions of the embedding.
    - A Python [float] is a real number ([R]): arithmetic is exact, the
      rounding of IEEE doubles is not modelled.  The one function whose
      result rounding changes, [reduce_reflex_angle_deg], has two more
      models: [utils_binary64], on the doubles themselves, [utils_int],
      on Python ints, and [utils_rounded], on reals with the rounding of
      the sums as a parameter.
    - The simulation is a store of reals indexed by property, read with
      [sim p] and written with [sim_set sim p v].
    - A call that can raise returns a [Result]: [Ok] with its value, or
      [Raise] with the exception.
    - What the tasks take from modules that are not among the sources
      ([FlightTask], the simulation's controls, the bounds of properties)
      is a parameter, given as a class. *)

From Stdlib Require Import Reals Lra Zfloor Ascii.
From Stdlib Require Floats.
From stdpp Require Import base option list strings countable gmap pretty.

(** ** Deciding comparisons of reals *)

#[global] Instance Rlt_decision : RelDecision Rlt := Rlt_dec.
#[global] Instance Rle_decision : RelDecision Rle := Rle_dec.
#[global] Instance Rgt_decision : RelDecision Rgt := fun x y => Rlt_dec y x.
#[global] Instance Req_decision : EqDecision R := Req_dec_T.

(** ** [utils.py] *)

Module utils.

(** [x % m] on floats, for a positive modulus [m]: the result has the sign
    of [m], that is [x - m * floor (x / m)].  The value is exact: it is the
    value of the source's [%] on Python ints and on doubles that hold a
    whole number.  On other doubles [%] can round; [utils_binary64.float_rem]
    has the rounding. *)
Definition float_mod (x m : R) : R := (x - m * IZR (Zfloor (x / m)))%R.

(** [reduce_reflex_angle_deg], utils.py lines 98-105. *)
Definition reduce_reflex_angle_deg (angle : R) : R :=
  let new_angle := float_mod angle 360 in
  if bool_decide (new_angle > 180)%R then (new_angle - 360)%R else new_angle.

End utils.

(** ** [utils.py] on IEEE doubles

    [reduce_reflex_angle_deg] on the doubles of the machine: a [float] is a
    binary64 number, [+], [-] and the comparisons are those of the
    processor, and round to nearest. *)

Module utils_binary64.
Import Floats.
#[local] Close Scope float_scope.

(** C's [fmod x y], which Python's [%] calls: the remainder of the division
    of [x] by [y] truncated towards zero.  It has the sign of [x] and is
    exact.  Both numbers are written [m * 2 ^ e] with the same exponent [e],
    and the remainder is that of their mantissas. *)
Definition fmod (x y : float) : float :=
  match Prim2SF x, Prim2SF y with
  | S754_nan, _ | _, S754_nan => nan
  | S754_infinity _, _ | _, S754_zero _ => nan
  | S754_zero _, _ | _, S754_infinity _ => x
  | S754_finite sx mx ex, S754_finite _ my ey =>
      let e := Z.min ex ey in
      let r := ((Z.pos mx * 2 ^ (ex - e)) `mod` (Z.pos my * 2 ^ (ey - e)))%Z in
      SF2Prim (binary_normalize prec emax (cond_Zopp sx r) e sx)
  end.

(** [vx % wx] on Python floats: [fmod], then the modulus is added where the
    remainder is not zero and has not the sign of the modulus; a remainder
    that is zero takes the sign of the modulus.  [None] is the
    [ZeroDivisionError] of a modulus that is zero. *)
Definition float_rem (vx wx : float) : option float :=
  if (wx =? 0)%float then None
  else
    let rem := fmod vx wx in
    if negb (rem =? 0)%float then
      if negb (Bool.eqb (wx <? 0)%float (rem <? 0)%float)
      then Some (rem + wx)%float
      else Some rem
    else Some (if get_sign wx then neg_zero else zero).

(** [reduce_reflex_angle_deg], utils.py lines 98-105, called with a float. *)
Definition reduce_reflex_angle_deg (angle : float) : option float :=
  new_angle ← float_rem angle 360%float;
  Some (if (180 <? new_angle)%float then (new_angle - 360)%float
        else new_angle).

(** The real number that a double holds: [m * 2 ^ e], with its sign. *)
Definition SF2R (x : spec_float) : R :=
  match x with
  | S754_finite s m e =>
      if (0 <=? e)%Z then (IZR (cond_Zopp s (Z.pos m)) * IZR (2 ^ e))%R
      else (IZR (cond_Zopp s (Z.pos m)) / IZR (2 ^ (- e)))%R
  | _ => 0%R
  end.

Definition to_R (x : float) : R := SF2R (Prim2SF x).

(** [float(z)], for an int that a double holds (one below [2 ^ 53] in
    absolute value). *)
Definition of_int (z : Z) : float :=
  match z with
  | Z0 => zero
  | Zpos _ => of_uint63 (Uint63.of_Z z)
  | Zneg p => (- of_uint63 (Uint63.of_Z (Zpos p)))%float
  end.

End utils_binary64.

(** ** [utils.py] on Python ints *)

Module utils_int.

(** [reduce_reflex_angle_deg], utils.py lines 98-105, called with an int:
    [%] is the remainder of the floor division, and the result is an
    int. *)
Definition reduce_reflex_angle_deg (angle : Z) : Z :=
  let new_angle := (angle `mod` 360)%Z in
  if bool_decide (new_angle > 180)%Z then (new_angle - 360)%Z else new_angle.

End utils_int.

(** ** [utils.py] on reals, with rounding

    [reduce_reflex_angle_deg] on the real numbers that the doubles hold.
    The sum of [%] and the difference of line 104 are rounded by [rnd]; what
    a rounding is, is an assumption of the statements. *)

Module utils_rounded.
Section rounding.
Variable rnd : R -> R.
Local Open Scope R_scope.

(** [x] truncated towards zero. *)
Definition Ztrunc (x : R) : Z :=
  if bool_decide (0 <= x) then Zfloor x else Zceil x.

(** C's [fmod x y]: [x - n * y], where [n] is [x / y] truncated towards
    zero.  It is exact. *)
Definition fmod (x y : R) : R := x - y * IZR (Ztrunc (x / y)).

(** [vx % wx] on Python floats, for a modulus that is not zero. *)
Definition float_rem (vx wx : R) : R :=
  let rem := fmod vx wx in
  if bool_decide (rem <> 0) then
    if negb (Bool.eqb (bool_decide (wx < 0)) (bool_decide (rem < 0)))
    then rnd (rem + wx)
    else rem
  else 0.

(** [reduce_reflex_angle_deg], utils.py lines 98-105. *)
Definition reduce_reflex_angle_deg (angle : R) : R :=
  let new_angle := float_rem angle 360 in
  if bool_decide (new_angle > 180) then rnd (new_angle - 360) else new_angle.

End rounding.
End utils_rounded.

(** ** Python exceptions *)

Inductive exn :=
  | ValueError (msg : string)
  | AttributeError (attr : string)
  | IndexError.

Inductive Result (A : Type) :=
  | Ok (a : A)
  | Raise (e : exn).
Arguments Ok {A} a.
Arguments Raise {A} e.

Definition bind {A B} (c : Result A) (k : A -> Result B) : Result B :=
  match c with
  | Ok a => k a
  | Raise e => Raise e
  end.

Notation "x <- c ;; k" := (bind c (fun x => k))
  (at level 100, c at next level, right associativity).

(** [l[i]] on a Python list, for an index that is not negative. *)
Definition py_index {A} (l : list A) (i : nat) : Result A :=
  match l !! i with
  | Some v => Ok v
  | None => Raise IndexError
  end.

(** ** [jsbgym_m.properties] *)

Module prp.

(** The names of the simulator's properties. A property of
    [jsbgym_m.properties] is called by its attribute there; a property
    declared in [task_advanced.py] by its name string, [/] and [-] read as
    [_] (["target/positionX-ft"] is [target_positionX_ft]); [other] is any
    further property of the simulator. *)
Inductive Property :=
  | ecef_x_ft | ecef_y_ft | ecef_z_ft
  | u_fps | v_down_fps | altitude_sl_ft | heading_deg
  | roll_rad | sideslip_deg
  | aileron_cmd | elevator_cmd | rudder_cmd
  | initial_u_fps | initial_v_fps | initial_w_fps
  | initial_p_radps | initial_q_radps | initial_r_radps
  | initial_roc_fpm | initial_heading_deg
  | last_agent_reward | last_assessment_reward
  | target_positionX_ft | target_positionY_ft
  | error_position_error_mt | error_altitude_error_ft
  | info_steps_left
  | other (name : string).

#[global] Instance Property_eq_dec : EqDecision Property.
Proof. solve_decision. Defined.

Definition named : list Property :=
  [ ecef_x_ft; ecef_y_ft; ecef_z_ft; u_fps; v_down_fps; altitude_sl_ft;
    heading_deg; roll_rad; sideslip_deg; aileron_cmd; elevator_cmd;
    rudder_cmd; initial_u_fps; initial_v_fps; initial_w_fps;
    initial_p_radps; initial_q_radps; initial_r_radps; initial_roc_fpm;
    initial_heading_deg; last_agent_reward; last_assessment_reward;
    target_positionX_ft; target_positionY_ft; error_position_error_mt;
    error_altitude_error_ft; info_steps_left ].

Definition Property_encode (p : Property) : nat + string :=
  match p with
  | other s => inr s
  | _ => inl (from_option fst 0%nat (list_find (eq p) named))
  end.

Definition Property_decode (c : nat + string) : option Property :=
  match c with
  | inl n => named !! n
  | inr s => Some (other s)
  end.

#[global] Instance Property_countable : Countable Property.
Proof.
  apply (inj_countable Property_encode Property_decode).
  intros []; reflexivity.
Defined.

(** [BoundedProperty(name, description, min, max)], without the
    description. *)
Record BoundedProperty := {
  name : Property;
  min : R;
  max : R;
}.

(** Modelled from the spec: [prp.Vector2] is not among the sources; the
    position error is "the Euclidean norm of the 2D horizontal offset". *)
Record Vector2 := { vx : R; vy : R }.

Definition Vector2_sub (a b : Vector2) : Vector2 :=
  {| vx := vx a - vx b; vy := vy a - vy b |}%R.

Definition Norm (v : Vector2) : R := sqrt (vx v * vx v + vy v * vy v).

End prp.

Coercion prp.name : prp.BoundedProperty >-> prp.Property.

(** ** The simulation: a store of reals indexed by property *)

Definition Simulation := prp.Property -> R.

(** [sim[prop] = value] *)
Definition sim_set (sim : Simulation) (prop : prp.Property) (value : R)
  : Simulation :=
  fun p => if decide (p = prop) then value else sim p.

(** ** [jsbgym_m.rewards] and [jsbgym_m.assessors] *)

Module rewards.

(** The arguments of [rewards.AsymptoticErrorComponent(...)]. *)
Record AsymptoticErrorComponent := {
  name : string;
  prop : prp.Property;
  state_variables : list prp.Property;
  target : R;
  is_potential_based : bool;
  scaling_factor : R;
}.

(** Modelled from the spec: [rewards.Reward] and [rewards.RewardStub] are
    not among the sources; a Reward is "a computed pair
    (agent_reward: float, assessment_reward: float)". *)
Record Reward := RewardStub {
  agent_reward : R;
  assessment_reward : R;
}.

End rewards.

Module assessors.

(** The arguments of [assessors.AssessorImpl(base_components,
    potential_components, positive_rewards=...)]. *)
Record AssessorImpl := {
  base_components : list rewards.AsymptoticErrorComponent;
  potential_components : list rewards.AsymptoticErrorComponent;
  positive_rewards : bool;
}.

End assessors.

(** ** [jsbgym_m.tasks], [jsbgym_m.aircraft], [jsbgym_m.simulation]:
    what [task_advanced.py] uses of them *)

(** The shaping argument: the members of [tasks.Shaping] that [utils.py]
    names, and the strings ["stage1"] ... that it passes in their place. *)
Inductive Shaping :=
  | STANDARD
  | EXTRA
  | EXTRA_SEQUENTIAL
  | stage (label : string).

(** [f"{shaping}"] *)
Definition Shaping_format (shaping : Shaping) : string :=
  match shaping with
  | STANDARD => "Shaping.STANDARD"
  | EXTRA => "Shaping.EXTRA"
  | EXTRA_SEQUENTIAL => "Shaping.EXTRA_SEQUENTIAL"
  | stage label => label
  end.

Record Aircraft := { get_cruise_speed_fps : R }.

(** What a task inherits from [FlightTask]. *)
Class FlightTask := {
  base_state_variables : list prp.Property;
  base_initial_conditions : gmap prp.Property R;
  FlightTask_new_episode_init : Simulation -> Simulation;
}.

(** What the tasks call of [Simulation] besides reading and writing
    properties. *)
Class SimulationControls := {
  set_throttle_mixture_controls : Simulation -> R -> R -> Simulation;
}.

(** The bounds of the properties of [jsbgym_m.properties] that the tasks
    read. *)
Class PropertyBounds := {
  heading_deg_min : R;
  heading_deg_max : R;
  altitude_sl_ft_min : R;
  altitude_sl_ft_max : R;
}.

Definition heading_deg {PB : PropertyBounds} : prp.BoundedProperty :=
  {| prp.name := prp.heading_deg;
     prp.min := heading_deg_min; prp.max := heading_deg_max |}.

Definition altitude_sl_ft {PB : PropertyBounds} : prp.BoundedProperty :=
  {| prp.name := prp.altitude_sl_ft;
     prp.min := altitude_sl_ft_min; prp.max := altitude_sl_ft_max |}.

(** ** Python dictionaries of initial conditions *)

(** [{k1: v1, ..., kn: vn}]: a later entry replaces an earlier one. *)
Definition dict_literal (entries : list (prp.Property * R))
  : gmap prp.Property R :=
  foldl (fun d kv => <[kv.1 := kv.2]> d) ∅ entries.

(** [{**a, **b}]: [b] wins on the keys of both. *)
Definition dict_merge (a b : gmap prp.Property R) : gmap prp.Property R :=
  b ∪ a.

(** ** [random] *)

Module random.

(** [random.uniform(a, b)] is [a + (b - a) * random()]; [u] is the draw
    of [random()], a number of [[0, 1)]. *)
Definition uniform (a b u : R) : R := (a + (b - a) * u)%R.

End random.

(** ** [task_advanced.py]: [TrajectoryTask] *)

Module TrajectoryTask.
Section TrajectoryTask.
Context {FT : FlightTask} {SC : SimulationControls} {PB : PropertyBounds}.
Local Open Scope R_scope.

Definition TARGET_xPOSITION_FT : R := 2000.
Definition TARGET_yPOSITION_FT : R := -8000.
Definition TARGET_zPOSITION_FT : R := 0.
Definition THROTTLE_CMD : R := 6 / 10.
Definition MIXTURE_CMD : R := 8 / 10.
Definition INITIAL_HEADING_DEG : R := 270.
Definition DEFAULT_EPISODE_TIME_S : R := 60.
Definition ALTITUDE_SCALING_FT : R := 100.
Definition POSITION_SCALING_MT : R := 5000.
Definition ACTION_PENALTY_SCALING : R := 15 / 100.
Definition ROLL_ERROR_SCALING_RAD : R := 15 / 100.
Definition SIDESLIP_ERROR_SCALING_DEG : R := 3.
Definition VERTICAL_SPEED_SCALING_FPS : R := 1.
Definition MIN_STATE_QUALITY : R := 0.
Definition MAX_ALTITUDE_DEVIATION_FT : R := 1000.
Definition NAVIGATION_TOLERANCE : R := 50.

Definition target_Xposition : prp.BoundedProperty :=
  {| prp.name := prp.target_positionX_ft;
     prp.min := -10000; prp.max := 10000 |}.
Definition target_Yposition : prp.BoundedProperty :=
  {| prp.name := prp.target_positionY_ft;
     prp.min := -10000; prp.max := 10000 |}.
Definition position_error_mt : prp.BoundedProperty :=
  {| prp.name := prp.error_position_error_mt;
     prp.min := 0; prp.max := 20000 |}.
Definition altitude_error_ft : prp.BoundedProperty :=
  {| prp.name := prp.error_altitude_error_ft;
     prp.min := prp.min altitude_sl_ft; prp.max := prp.max altitude_sl_ft |}.
Definition action_variables : list prp.Property :=
  [prp.aileron_cmd; prp.elevator_cmd; prp.rudder_cmd].

(** [last_assessment_reward] is inherited from [FlightTask]. *)
Definition last_assessment_reward : prp.Property :=
  prp.last_assessment_reward.

(** The instance. [episode_steps] stands for the property [steps_left],
    which [__init__] builds from it; an attribute that is not set yet is
    [None]. *)
Record t := {
  max_time_s : R;
  episode_steps : Z;
  aircraft : Aircraft;
  extra_state_variables : list prp.Property;
  state_variables : list prp.Property;
  positive_rewards : bool;
  assessor : option assessors.AssessorImpl;
  init_ecef_position : option (list R);
}.

(** [self.steps_left = BoundedProperty("info/steps_left", ..., 0,
    episode_steps)] *)
Definition steps_left (self : t) : prp.BoundedProperty :=
  {| prp.name := prp.info_steps_left;
     prp.min := 0; prp.max := IZR (episode_steps self) |}.

Definition set_assessor (self : t) (a : assessors.AssessorImpl) : t :=
  {| max_time_s := max_time_s self;
     episode_steps := episode_steps self;
     aircraft := aircraft self;
     extra_state_variables := extra_state_variables self;
     state_variables := state_variables self;
     positive_rewards := positive_rewards self;
     assessor := Some a;
     init_ecef_position := init_ecef_position self |}.

Definition set_init_ecef_position (self : t) (position : list R) : t :=
  {| max_time_s := max_time_s self;
     episode_steps := episode_steps self;
     aircraft := aircraft self;
     extra_state_variables := extra_state_variables self;
     state_variables := state_variables self;
     positive_rewards := positive_rewards self;
     assessor := assessor self;
     init_ecef_position := Some position |}.

(** [self.init_ecef_position] *)
Definition get_init_ecef_position (self : t) : Result (list R) :=
  match init_ecef_position self with
  | Some position => Ok position
  | None => Raise (AttributeError "init_ecef_position")
  end.

(** Lines 205-240. *)
Definition _make_base_reward_components (self : t)
  : list rewards.AsymptoticErrorComponent :=
  [ {| rewards.name := "altitude_error";
       rewards.prop := altitude_error_ft;
       rewards.state_variables := state_variables self;
       rewards.target := 0;
       rewards.is_potential_based := false;
       rewards.scaling_factor := ALTITUDE_SCALING_FT |};
    {| rewards.name := "position_error";
       rewards.prop := position_error_mt;
       rewards.state_variables := state_variables self;
       rewards.target := 0;
       rewards.is_potential_based := false;
       rewards.scaling_factor := POSITION_SCALING_MT |} ].

Definition wings_level (self : t) : rewards.AsymptoticErrorComponent :=
  {| rewards.name := "wings_level";
     rewards.prop := prp.roll_rad;
     rewards.state_variables := state_variables self;
     rewards.target := 0;
     rewards.is_potential_based := true;
     rewards.scaling_factor := ROLL_ERROR_SCALING_RAD |}.

Definition no_sideslip (self : t) : rewards.AsymptoticErrorComponent :=
  {| rewards.name := "no_sideslip";
     rewards.prop := prp.sideslip_deg;
     rewards.state_variables := state_variables self;
     rewards.target := 0;
     rewards.is_potential_based := true;
     rewards.scaling_factor := SIDESLIP_ERROR_SCALING_DEG |}.

(** Lines 242-282: the first [if] returns under [STANDARD] and otherwise
    builds the two shaping components; the second returns under [EXTRA]
    and otherwise raises. *)
Definition _select_assessor (self : t)
    (base_components shaping_components
       : list rewards.AsymptoticErrorComponent)
    (shaping : Shaping) : Result assessors.AssessorImpl :=
  match shaping with
  | STANDARD =>
      Ok {| assessors.base_components := base_components;
            assessors.potential_components := shaping_components;
            assessors.positive_rewards := positive_rewards self |}
  | _ =>
      let potential_based_components :=
        [wings_level self; no_sideslip self] in
      match shaping with
      | EXTRA =>
          Ok {| assessors.base_components := base_components;
                assessors.potential_components :=
                  potential_based_components;
                assessors.positive_rewards := positive_rewards self |}
      | _ =>
          Raise (ValueError ("Unsupported shaping type: "
                             +:+ Shaping_format shaping))
      end
  end.

(** Lines 200-203. *)
Definition make_assessor (self : t) (shaping : Shaping)
  : Result assessors.AssessorImpl :=
  let base_components := _make_base_reward_components self in
  let shaping_components := [] in
  _select_assessor self base_components shaping_components shaping.

(** Lines 166-198; [super().__init__(assessor)] stores the assessor. *)
Definition __init__ (shaping_type : Shaping) (step_frequency_hz : R)
    (aircraft : Aircraft) (episode_time_s : R) (positive_rewards : bool)
  : Result t :=
  let max_time_s := episode_time_s in
  let episode_steps := Zceil (max_time_s * step_frequency_hz) in
  let extra_state_variables :=
    [ prp.name altitude_error_ft; prp.name position_error_mt;
      prp.sideslip_deg; prp.v_down_fps ] in
  let self :=
    {| max_time_s := max_time_s;
       episode_steps := episode_steps;
       aircraft := aircraft;
       extra_state_variables := extra_state_variables;
       state_variables :=
         base_state_variables ++ action_variables
           ++ extra_state_variables;
       positive_rewards := positive_rewards;
       assessor := None;
       init_ecef_position := None |} in
  assessor <- make_assessor self shaping_type ;;
  Ok (set_assessor self assessor).

(** Lines 294-305. *)
Definition get_initial_conditions (self : t) : gmap prp.Property R :=
  let extra_conditions :=
    dict_literal
      [ (prp.initial_u_fps, get_cruise_speed_fps (aircraft self));
        (prp.initial_v_fps, 0);
        (prp.initial_w_fps, 0);
        (prp.initial_p_radps, 0);
        (prp.initial_q_radps, 0);
        (prp.initial_r_radps, 0);
        (prp.initial_roc_fpm, 0);
        (prp.initial_heading_deg, INITIAL_HEADING_DEG) ] in
  dict_merge base_initial_conditions extra_conditions.

(** Lines 370-379. *)
Definition _get_target_position (self : t) (flag : string) : Result R :=
  if decide (flag = "x") then
    position <- get_init_ecef_position self ;;
    anchor <- py_index position 0 ;;
    Ok (TARGET_xPOSITION_FT + anchor)
  else if decide (flag = "y") then
    position <- get_init_ecef_position self ;;
    anchor <- py_index position 1 ;;
    Ok (TARGET_yPOSITION_FT + anchor)
  else if decide (flag = "z") then
    position <- get_init_ecef_position self ;;
    anchor <- py_index position 2 ;;
    Ok (TARGET_zPOSITION_FT + anchor)
  else
    Raise (ValueError ("Unsupported flag in get target position: "
                       +:+ flag)).

(** Lines 313-317. *)
Definition _update_position_error (self : t) (sim : Simulation)
  : Simulation :=
  let position :=
    {| prp.vx := sim prp.ecef_x_ft; prp.vy := sim prp.ecef_y_ft |} in
  let target_position :=
    {| prp.vx := sim target_Xposition;
       prp.vy := sim target_Yposition |} in
  let error_mt := prp.Norm (prp.Vector2_sub position target_position) in
  sim_set sim position_error_mt error_mt.

(** Lines 319-323. *)
Definition _update_altitude_error (self : t) (sim : Simulation)
  : Result Simulation :=
  let z_position := sim prp.ecef_z_ft in
  target_z_ft <- _get_target_position self "z" ;;
  let error_ft := z_position - target_z_ft in
  Ok (sim_set sim altitude_error_ft error_ft).

(** Lines 325-326. *)
Definition _decrement_steps_left (self : t) (sim : Simulation)
  : Simulation :=
  sim_set sim (steps_left self) (sim (steps_left self) - 1).

(** Lines 307-310. An exception ends the step; the store it leaves behind
    is not kept. *)
Definition _update_custom_properties (self : t) (sim : Simulation)
  : Result Simulation :=
  let sim := _update_position_error self sim in
  sim <- _update_altitude_error self sim ;;
  Ok (_decrement_steps_left self sim).

(** Lines 336-338. *)
Definition _altitude_out_of_bounds (self : t) (sim : Simulation) : bool :=
  let altitude_error_ft := sim altitude_error_ft in
  bool_decide (Rabs altitude_error_ft > MAX_ALTITUDE_DEVIATION_FT).

(** Lines 340-341. *)
Definition _arrive_at_navigation_point (self : t) (sim : Simulation)
  : bool :=
  bool_decide (sim position_error_mt < NAVIGATION_TOLERANCE).

(** Lines 328-334. *)
Definition _is_terminal (self : t) (sim : Simulation) : bool :=
  let terminal_step := bool_decide (sim (steps_left self) <= 0) in
  let state_quality := sim last_assessment_reward in
  let state_out_of_bounds :=
    bool_decide (state_quality < MIN_STATE_QUALITY) in
  terminal_step || state_out_of_bounds
    || _altitude_out_of_bounds self sim
    || _arrive_at_navigation_point self sim.

(** Lines 343-349. *)
Definition _get_out_of_bounds_reward (self : t) (sim : Simulation)
  : rewards.Reward :=
  let reward_scalar := (1 + sim (steps_left self)) * -1 in
  rewards.RewardStub reward_scalar reward_scalar.

(** Lines 351-358. *)
Definition _reward_terminal_override (self : t) (reward : rewards.Reward)
    (sim : Simulation) : rewards.Reward :=
  if _altitude_out_of_bounds self sim && negb (positive_rewards self)
  then _get_out_of_bounds_reward self sim
  else reward.

(** Lines 360-368. The method changes both the instance and the store. *)
Definition _new_episode_init (self : t) (sim : Simulation)
  : Result (t * Simulation) :=
  let sim := FlightTask_new_episode_init sim in
  let sim := set_throttle_mixture_controls sim THROTTLE_CMD MIXTURE_CMD in
  let sim := sim_set sim (steps_left self) (prp.max (steps_left self)) in
  let self :=
    set_init_ecef_position self
      [sim prp.ecef_x_ft; sim prp.ecef_y_ft; sim prp.ecef_z_ft] in
  x <- _get_target_position self "x" ;;
  let sim := sim_set sim target_Xposition x in
  y <- _get_target_position self "y" ;;
  let sim := sim_set sim target_Yposition y in
  Ok (self, sim).

(** Modelled from the spec: the driver of a step, [FlightTask.task_step],
    is not among the sources. "Simulation integrates physics (external) ->
    Task updates derived/error properties from new Simulation state": one
    element of [physics] is what the simulator does to the store in one
    step, and the update hook runs after it. *)
Fixpoint run_steps (self : t) (physics : list (Simulation -> Simulation))
    (sim : Simulation) : Result Simulation :=
  match physics with
  | [] => Ok sim
  | integrate :: rest =>
      sim <- _update_custom_properties self (integrate sim) ;;
      run_steps self rest sim
  end.

End TrajectoryTask.
End TrajectoryTask.

(** ** [task_advanced.py]: [TurnHeadingControlTask] *)

Module TurnHeadingControlTask.
Section TurnHeadingControlTask.
Context {PB : PropertyBounds}.

(** The instance, and [get_initial_conditions] of the parent classes
    ([SmoothHeadingTask] does not define it, [HeadingControlTask] is not
    among the sources). *)
Context {t : Type} (super_get_initial_conditions : t -> gmap prp.Property R).

(** Lines 108-112; [u] is the draw of the random generator. *)
Definition get_initial_conditions (self : t) (u : R)
  : gmap prp.Property R :=
  let initial_conditions := super_get_initial_conditions self in
  let random_heading :=
    random.uniform (prp.min heading_deg) (prp.max heading_deg) u in
  let initial_conditions :=
    <[prp.initial_heading_deg := random_heading]> initial_conditions in
  initial_conditions.

(** Lines 114-116; [target_track_deg] is the property that the instance
    inherits from [HeadingControlTask], [u] the draw of the random
    generator. *)
Definition _get_target_track (target_track_deg : prp.BoundedProperty)
    (u : R) : R :=
  random.uniform (prp.min target_track_deg) (prp.max target_track_deg) u.

End TurnHeadingControlTask.
End TurnHeadingControlTask.

(** ** [utils.py]: [AttributeFormatter] *)

(** A string is a sequence of 8-bit characters. *)
Module AttributeFormatter.

(** [s * n] *)
Fixpoint str_repeat (s : string) (n : nat) : string :=
  match n with
  | O => ""
  | S n => s +:+ str_repeat s n
  end.

(** [str.maketrans(x, y)]: the table that sends the i-th character of [x]
    to the i-th character of [y]; the lengths must agree. *)
Definition maketrans (x y : string) : Result (gmap ascii ascii) :=
  if decide (String.length x = String.length y) then
    Ok (foldl (fun table kv => <[kv.1 := kv.2]> table) ∅
          (zip (String.list_ascii_of_string x)
               (String.list_ascii_of_string y)))
  else
    Raise (ValueError
             "the first two maketrans arguments must have equal length").

(** [s.translate(table)]: a character of the table is replaced, any other
    is kept. *)
Fixpoint str_translate (table : gmap ascii ascii) (s : string) : string :=
  match s with
  | EmptyString => EmptyString
  | String c rest =>
      String (default c (table !! c)) (str_translate table rest)
  end.

Definition ILLEGAL_CHARS : string := "\-/.".
Definition TRANSLATE_TO : string :=
  str_repeat "_" (String.length ILLEGAL_CHARS).
Definition TRANSLATION_TABLE : Result (gmap ascii ascii) :=
  maketrans ILLEGAL_CHARS TRANSLATE_TO.

(** Lines 34-36. *)
Definition translate (text : string) : Result string :=
  table <- TRANSLATION_TABLE ;;
  Ok (str_translate table text).

End AttributeFormatter.

(** ** [utils.py]: environment ids and [product] *)

(** The task classes that [get_env_id_kwargs_map] registers. *)
Module classes.

Inductive TaskType :=
  | HeadingControlTask
  | TurnHeadingControlTask
  | SmoothHeadingTask
  | TrajectoryTask
  | TrackingTask
  | TrackingInitTask.

(** [task_type.__name__] *)
Definition __name__ (task_type : TaskType) : string :=
  match task_type with
  | HeadingControlTask => "HeadingControlTask"
  | TurnHeadingControlTask => "TurnHeadingControlTask"
  | SmoothHeadingTask => "SmoothHeadingTask"
  | TrajectoryTask => "TrajectoryTask"
  | TrackingTask => "TrackingTask"
  | TrackingInitTask => "TrackingInitTask"
  end.

#[global] Instance TaskType_eq_dec : EqDecision TaskType.
Proof. solve_decision. Defined.

End classes.

(** What [utils.py] imports from [jsbgym_m.aircraft]: the fourteen
    aircraft, of a type [A] whose values have a [name]. *)
Class AircraftModule (A : Type) := {
  name : A -> string;
  c172 : A; a320 : A; f15 : A; pa28 : A; b747 : A; f16 : A; j3 : A;
  md11 : A; ov10 : A; dhc6 : A; pc7 : A; c130 : A; wf : A; ss : A;
}.

Module utils_more.
Section env.
Context {A : Type} {AM : AircraftModule A}.

(** Lines 39-51. *)
Definition get_env_id (aircraft : A) (task_type : classes.TaskType)
    (shaping : Shaping) (enable_flightgear : bool) : string :=
  let fg_setting := if enable_flightgear then "FG" else "NoFG" in
  name aircraft +:+ "-" +:+ classes.__name__ task_type +:+ "-"
    +:+ Shaping_format shaping +:+ "-" +:+ fg_setting +:+ "-v0".

(** The loops of lines 63-81, outermost first. *)
Definition task_types : list classes.TaskType :=
  [ classes.HeadingControlTask; classes.TurnHeadingControlTask;
    classes.SmoothHeadingTask; classes.TrajectoryTask;
    classes.TrackingTask; classes.TrackingInitTask ].

Definition planes : list A :=
  [c172; a320; f15; pa28; b747; f16; j3; md11; ov10; dhc6; pc7; c130; wf; ss].

(** [[f"stage{n}" for n in range(1, 11)]] *)
Definition stage_types : list string :=
  (fun n : nat => "stage" +:+ pretty n) <$> seq 1 10.

Definition shapings : list Shaping :=
  [STANDARD; EXTRA; EXTRA_SEQUENTIAL] ++ (stage <$> stage_types).

(** The body of the innermost loop, lines 82-84; [None] is the
    [AssertionError] of [assert id not in map]. *)
Definition register (map : option (gmap string (A * classes.TaskType
                                                 * Shaping * bool)))
    (plane : A) (task_type : classes.TaskType) (shaping : Shaping)
    (enable_flightgear : bool)
  : option (gmap string (A * classes.TaskType * Shaping * bool)) :=
  match map with
  | None => None
  | Some map =>
      let id := get_env_id plane task_type shaping enable_flightgear in
      if decide (is_Some (map !! id)) then None
      else Some (<[id := (plane, task_type, shaping, enable_flightgear)]>
                   map)
  end.

(** Lines 54-85. *)
Definition get_env_id_kwargs_map
  : option (gmap string (A * classes.TaskType * Shaping * bool)) :=
  foldl (fun map task_type =>
    foldl (fun map plane =>
      foldl (fun map shaping =>
        foldl (fun map enable_flightgear =>
                 register map plane task_type shaping enable_flightgear)
          map [true; false])
        map shapings)
      map planes)
    (Some ∅) task_types.

End env.

(** Lines 88-95: [functools.reduce(operator.mul, iterable, 1)].  The
    products are exact, as those of Python ints are; a product of doubles
    can round, underflow to [0.0] or overflow. *)
Definition product (iterable : list R) : R :=
  foldl Rmult 1%R iterable.

End utils_more.

(** ** Predicates of the statements *)

(** What the simulator does in a step leaves alone the properties that the
    task owns: the step counter and the target. *)
Definition keeps_task_properties (integrate : Simulation -> Simulation)
  : Prop :=
  forall sim : Simulation,
    integrate sim prp.info_steps_left = sim prp.info_steps_left
    /\ integrate sim prp.target_positionX_ft = sim prp.target_positionX_ft
    /\ integrate sim prp.target_positionY_ft = sim prp.target_positionY_ft.

(** The horizontal offset of the aircraft from the target, as
    [_update_position_error] forms it. *)
Definition horizontal_offset (sim : Simulation) : prp.Vector2 :=
  prp.Vector2_sub
    {| prp.vx := sim prp.ecef_x_ft; prp.vy := sim prp.ecef_y_ft |}
    {| prp.vx := sim TrajectoryTask.target_Xposition;
       prp.vy := sim TrajectoryTask.target_Yposition |}.

(** The keys of the dictionary [extra_conditions] of
    [TrajectoryTask.get_initial_conditions]. *)
Definition extra_keys : list prp.Property :=
  [ prp.initial_u_fps; prp.initial_v_fps; prp.initial_w_fps;
    prp.initial_p_radps; prp.initial_q_radps; prp.initial_r_radps;
    prp.initial_roc_fpm; prp.initial_heading_deg ].

(** The simulator moves the aircraft to a position. *)
Definition move_to (x y z : R) (sim : Simulation) : Simulation :=
  sim_set (sim_set (sim_set sim prp.ecef_x_ft x) prp.ecef_y_ft y)
    prp.ecef_z_ft z.

(** A character that [AttributeFormatter] replaces. *)
Definition illegal (c : ascii) : Prop :=
  c ∈ String.list_ascii_of_string AttributeFormatter.ILLEGAL_CHARS.

(** What [AttributeFormatter.translate] makes of a character. *)
Definition clean_char (c : ascii) : ascii :=
  if decide (illegal c) then "_"%char else c.

(** The string holds no ["-"]. *)
Fixpoint dash_free (s : string) : bool :=
  match s with
  | EmptyString => true
  | String c rest => negb (Ascii.eqb c "-") && dash_free rest
  end.

(** What the statements on [utils_rounded] assume of the doubles, where [F]
    is the set of the reals that a finite double holds and [rnd] the
    rounding of a real to a double: a double is rounded to itself, rounding
    is monotone, a real between 0 and 360 is rounded to a double, [fmod] by
    360 is exact, the difference of two doubles of which none is more than
    twice the other is a double, and so is an integer of at most 360 in
    absolute value. *)
Record ieee_rounding (F : R -> Prop) (rnd : R -> R) : Prop := {
  rnd_exact : forall x, F x -> rnd x = x;
  rnd_monotone : forall x y, (x <= y)%R -> (rnd x <= rnd y)%R;
  rnd_F : forall x, (0 <= x <= 360)%R -> F (rnd x);
  fmod_F : forall x, F x -> F (utils_rounded.fmod x 360);
  sterbenz :
    forall x y, F x -> F y -> (y / 2 <= x <= 2 * y)%R -> F (x - y)%R;
  integer_F : forall z : Z, (-360 <= z <= 360)%Z -> F (IZR z);
}.

(** On the double that holds [z], the doubles give the double that holds
    the result of the ints. *)
Definition exact_on (z : Z) : bool :=
  match utils_binary64.reduce_reflex_angle_deg (utils_binary64.of_int z) with
  | Some r =>
      PrimFloat.Leibniz.eqb r
        (utils_binary64.of_int (utils_int.reduce_reflex_angle_deg z))
  | None => false
  end.

Section registry.
Context {A : Type} {AM : AircraftModule A}.

(** The tuples that the loops of [get_env_id_kwargs_map] visit, in the
    order of the visit, the id of a tuple, and the body of the innermost
    loop on a tuple. *)
Definition kwargs : Type := A * classes.TaskType * Shaping * bool.

Definition combos : list kwargs :=
  task_type ← utils_more.task_types; plane ← utils_more.planes;
  shaping ← utils_more.shapings; enable_flightgear ← [true; false];
  [(plane, task_type, shaping, enable_flightgear)].

Definition id_of (c : kwargs) : string :=
  utils_more.get_env_id c.1.1.1 c.1.1.2 c.1.2 c.2.

Definition register_kwargs (map : option (gmap string kwargs)) (c : kwargs)
  : option (gmap string kwargs) :=
  utils_more.register map c.1.1.1 c.1.1.2 c.1.2 c.2.

End registry.

(** ** Concrete instances, for the examples *)

Module examples.
Local Open Scope R_scope.

Definition bounds : PropertyBounds :=
  {| heading_deg_min := 0; heading_deg_max := 360;
     altitude_sl_ft_min := -1400; altitude_sl_ft_max := 85000 |}.

Definition flight_task : FlightTask :=
  {| base_state_variables := [prp.altitude_sl_ft; prp.roll_rad; prp.u_fps];
     base_initial_conditions :=
       dict_literal [ (prp.other "ic/h-sl-ft", 5000);
                      (prp.initial_heading_deg, 90) ];
     FlightTask_new_episode_init := fun sim => sim |}.

Definition controls : SimulationControls :=
  {| set_throttle_mixture_controls := fun sim _ _ => sim |}.

Definition plane : Aircraft := {| get_cruise_speed_fps := 200 |}.

(** A store that holds the listed values and 0 elsewhere. *)
Definition store (entries : list (prp.Property * R)) : Simulation :=
  foldl (fun sim kv => sim_set sim kv.1 kv.2) (fun _ => 0) entries.

(** An instance with 300 steps per episode, before its first episode. *)
Definition task (positive_rewards : bool) : TrajectoryTask.t :=
  {| TrajectoryTask.max_time_s := 60;
     TrajectoryTask.episode_steps := 300;
     TrajectoryTask.aircraft := plane;
     TrajectoryTask.extra_state_variables := [];
     TrajectoryTask.state_variables := [];
     TrajectoryTask.positive_rewards := positive_rewards;
     TrajectoryTask.assessor := None;
     TrajectoryTask.init_ecef_position := None |}.

(** The instance that the constructor returns for [STANDARD] shaping, 5
    steps per second and episodes of 60 seconds. *)
Definition built_task : TrajectoryTask.t :=
  match
    TrajectoryTask.__init__ (FT := flight_task) (PB := bounds)
      STANDARD 5 plane 60 true
  with
  | Ok self => self
  | Raise _ => task true
  end.

(** The same instance in an episode that started at [(100, 200, 300)]. *)
Definition started_task (positive_rewards : bool) : TrajectoryTask.t :=
  TrajectoryTask.set_init_ecef_position (task positive_rewards)
    [100; 200; 300].

(** Fourteen aircraft, each standing for its name. *)
Definition hangar : AircraftModule string :=
  {| name := fun aircraft => aircraft;
     c172 := "C172"; a320 := "A320"; f15 := "F15"; pa28 := "PA28";
     b747 := "B747"; f16 := "F16"; j3 := "J3Cub"; md11 := "MD11";
     ov10 := "OV10"; dhc6 := "DHC6"; pc7 := "PC7"; c130 := "C130";
     wf := "WF"; ss := "SS" |}.

End examples.

(** * Theorems *)

Section angle.
Import utils.
Local Open Scope R_scope.

Lemma float_mod_range x m : 0 < m -> 0 <= float_mod x m < m.
Proof.
  intros Hm. unfold float_mod.
  destruct (Zfloor_bound (x / m)) as [Hlo Hhi].
  assert (Hx : x = m * (x / m)) by (field; lra).
  split.
  - apply (Rmult_le_compat_l m) in Hlo; lra.
  - apply (Rmult_lt_compat_l m) in Hhi; lra.
Qed.

Lemma float_mod_small x m : 0 <= x < m -> float_mod x m = x.
Proof.
  intros [Hlo Hhi]. unfold float_mod.
  assert (Hm : 0 < m) by lra.
  rewrite (Zfloor_eq 0).
  - lra.
  - split.
    + apply Rmult_le_pos; [lra|]. left. now apply Rinv_0_lt_compat.
    + apply (Rmult_lt_reg_r m); [lra|]. field_simplify; lra.
Qed.

Lemma float_mod_shift x m : 0 < m -> - m <= x < 0 -> float_mod x m = x + m.
Proof.
  intros Hm [Hlo Hhi]. unfold float_mod.
  rewrite (Zfloor_eq (-1)).
  - lra.
  - split.
    + apply (Rmult_le_reg_r m); [lra|]. field_simplify; lra.
    + apply (Rmult_lt_reg_r m); [lra|]. field_simplify; lra.
Qed.

Lemma reduce_reflex_angle_deg_range angle :
  -180 < reduce_reflex_angle_deg angle <= 180.
Proof.
  unfold reduce_reflex_angle_deg.
  pose proof (float_mod_range angle 360 ltac:(lra)) as [Hlo Hhi].
  case_bool_decide; lra.
Qed.

Lemma reduce_reflex_angle_deg_fixed r :
  -180 < r <= 180 -> reduce_reflex_angle_deg r = r.
Proof.
  intros [Hlo Hhi]. unfold reduce_reflex_angle_deg.
  destruct (Rle_lt_dec 0 r) as [Hpos|Hneg].
  - rewrite float_mod_small by lra. case_bool_decide; lra.
  - rewrite float_mod_shift by lra. case_bool_decide; lra.
Qed.


End angle.

Section angle_binary64.
Import Floats.
Local Open Scope R_scope.

Lemma to_R_finite (x : float) s m e :
  Prim2SF x = S754_finite s m e ->
  utils_binary64.to_R x = utils_binary64.SF2R (S754_finite s m e).
Proof. unfold utils_binary64.to_R. now intros ->. Qed.

Lemma to_R_zero : utils_binary64.to_R 0%float = 0.
Proof.
  unfold utils_binary64.to_R.
  replace (Prim2SF 0%float) with (S754_zero false)
    by (vm_compute; reflexivity).
  reflexivity.
Qed.


End angle_binary64.

(** ** The store *)

Lemma sim_set_eq (sim : Simulation) p v : sim_set sim p v p = v.
Proof. unfold sim_set. now rewrite decide_True. Qed.

Lemma sim_set_ne (sim : Simulation) p q v :
  q <> p -> sim_set sim p v q = sim q.
Proof. intros Hne. unfold sim_set. now rewrite decide_False. Qed.

(** ** [TrajectoryTask]: termination *)

Section terminal.
Context {PB : PropertyBounds}.
Import TrajectoryTask.
Local Open Scope R_scope.

Lemma _altitude_out_of_bounds_true self sim :
  _altitude_out_of_bounds self sim = true
  <-> Rabs (sim altitude_error_ft) > MAX_ALTITUDE_DEVIATION_FT.
Proof. unfold _altitude_out_of_bounds. apply bool_decide_eq_true. Qed.

Lemma _arrive_at_navigation_point_true self sim :
  _arrive_at_navigation_point self sim = true
  <-> sim position_error_mt < NAVIGATION_TOLERANCE.
Proof. unfold _arrive_at_navigation_point. apply bool_decide_eq_true. Qed.

Lemma _is_terminal_true self sim :
  _is_terminal self sim = true
  <-> sim (steps_left self) <= 0
      \/ sim last_assessment_reward < MIN_STATE_QUALITY
      \/ Rabs (sim altitude_error_ft) > MAX_ALTITUDE_DEVIATION_FT
      \/ sim position_error_mt < NAVIGATION_TOLERANCE.
Proof.
  unfold _is_terminal.
  rewrite !orb_true_iff, !bool_decide_eq_true,
    _altitude_out_of_bounds_true, _arrive_at_navigation_point_true.
  tauto.
Qed.

(** C2. [_is_terminal] is true exactly when one of four triggers holds:
    [steps_left <= 0], [last_assessment_reward < MIN_STATE_QUALITY],
    [|altitude_error| > MAX_ALTITUDE_DEVIATION_FT], or
    [position_error < NAVIGATION_TOLERANCE]. The last two comparisons are
    strict: with no other trigger firing, a position error of exactly
    [NAVIGATION_TOLERANCE] (50) does not terminate, a position error of
    [NAVIGATION_TOLERANCE - 1] does, and an altitude error of exactly
    [MAX_ALTITUDE_DEVIATION_FT] (1000) does not terminate. *)
Theorem is_terminal_spec (self : t) (sim : Simulation) :
  (_is_terminal self sim = true
   <-> sim (steps_left self) <= 0
       \/ sim last_assessment_reward < MIN_STATE_QUALITY
       \/ Rabs (sim altitude_error_ft) > MAX_ALTITUDE_DEVIATION_FT
       \/ sim position_error_mt < NAVIGATION_TOLERANCE)
  /\ NAVIGATION_TOLERANCE = 50
  /\ MAX_ALTITUDE_DEVIATION_FT = 1000
  /\ (sim position_error_mt = NAVIGATION_TOLERANCE ->
      _arrive_at_navigation_point self sim = false
      /\ (~ sim (steps_left self) <= 0 ->
          ~ sim last_assessment_reward < MIN_STATE_QUALITY ->
          ~ Rabs (sim altitude_error_ft) > MAX_ALTITUDE_DEVIATION_FT ->
          _is_terminal self sim = false))
  /\ (sim position_error_mt = NAVIGATION_TOLERANCE - 1 ->
      _arrive_at_navigation_point self sim = true
      /\ _is_terminal self sim = true)
  /\ (Rabs (sim altitude_error_ft) = MAX_ALTITUDE_DEVIATION_FT ->
      _altitude_out_of_bounds self sim = false
      /\ (~ sim (steps_left self) <= 0 ->
          ~ sim last_assessment_reward < MIN_STATE_QUALITY ->
          ~ sim position_error_mt < NAVIGATION_TOLERANCE ->
          _is_terminal self sim = false)).
Proof.
  pose proof (_is_terminal_true self sim) as Hiff.
  pose proof (_arrive_at_navigation_point_true self sim) as Hnav.
  pose proof (_altitude_out_of_bounds_true self sim) as Halt.
  unfold NAVIGATION_TOLERANCE, MAX_ALTITUDE_DEVIATION_FT in *.
  repeat split; try tauto.
  - apply not_true_is_false. rewrite Hnav. lra.
  - intros ? ? ?. apply not_true_is_false. rewrite Hiff. lra.
  - apply Hnav. lra.
  - apply Hiff. lra.
  - apply not_true_is_false. rewrite Halt. lra.
  - intros ? ? ?. apply not_true_is_false. rewrite Hiff. lra.
Qed.

End terminal.

Section terminal_examples.
Import TrajectoryTask.
Local Open Scope R_scope.

Lemma is_terminal_witness :
  let self := examples.task true in
  let at_tolerance :=
    examples.store [(prp.error_position_error_mt, 50);
                    (prp.info_steps_left, 7);
                    (prp.last_assessment_reward, 1)] in
  let inside :=
    examples.store [(prp.error_position_error_mt, 49);
                    (prp.info_steps_left, 7);
                    (prp.last_assessment_reward, 1)] in
  let at_envelope :=
    examples.store [(prp.error_position_error_mt, 6000);
                    (prp.error_altitude_error_ft, -1000);
                    (prp.info_steps_left, 7);
                    (prp.last_assessment_reward, 1)] in
  _is_terminal (PB := examples.bounds) self at_tolerance = false
  /\ _is_terminal (PB := examples.bounds) self inside = true
  /\ _is_terminal (PB := examples.bounds) self at_envelope = false.
Proof.
  intros self at_tolerance inside at_envelope.
  assert (Hquality : ~ 1 < MIN_STATE_QUALITY)
    by (unfold MIN_STATE_QUALITY; lra).
  assert (Hsteps : ~ 7 <= 0) by lra.
  assert (Hlevel : ~ Rabs 0 > MAX_ALTITUDE_DEVIATION_FT)
    by (rewrite Rabs_R0; unfold MAX_ALTITUDE_DEVIATION_FT; lra).
  assert (Hfar : ~ 6000 < NAVIGATION_TOLERANCE)
    by (unfold NAVIGATION_TOLERANCE; lra).
  assert (Hedge : Rabs (-1000) = MAX_ALTITUDE_DEVIATION_FT)
    by (rewrite Rabs_left by lra; unfold MAX_ALTITUDE_DEVIATION_FT; lra).
  split; [|split].
  - destruct (is_terminal_spec (PB := examples.bounds) self at_tolerance)
      as (_ & _ & _ & Hat & _).
    exact (proj2 (Hat eq_refl) Hsteps Hquality Hlevel).
  - destruct (is_terminal_spec (PB := examples.bounds) self inside)
      as (_ & Htol & _ & _ & Hin & _).
    refine (proj2 (Hin _)).
    change (49 = NAVIGATION_TOLERANCE - 1). rewrite Htol. lra.
  - destruct (is_terminal_spec (PB := examples.bounds) self at_envelope)
      as (_ & _ & _ & _ & _ & Henv).
    exact (proj2 (Henv Hedge) Hsteps Hquality Hfar).
Defined.

End terminal_examples.

(** ** [TrajectoryTask]: the choice of the assessor *)

Section assessor.
Context {FT : FlightTask} {PB : PropertyBounds}.
Import TrajectoryTask.
Local Open Scope R_scope.

Lemma _select_assessor_other self base shaping_components shaping :
  shaping <> STANDARD -> shaping <> EXTRA ->
  _select_assessor self base shaping_components shaping
  = Raise (ValueError ("Unsupported shaping type: "
                       +:+ Shaping_format shaping)).
Proof. destruct shaping; intros; try reflexivity; congruence. Qed.

Lemma __init___other shaping step_frequency_hz aircraft episode_time_s
    positive_rewards :
  shaping <> STANDARD -> shaping <> EXTRA ->
  __init__ shaping step_frequency_hz aircraft episode_time_s
    positive_rewards
  = Raise (ValueError ("Unsupported shaping type: "
                       +:+ Shaping_format shaping)).
Proof.
  intros Hs He. unfold __init__, make_assessor.
  now rewrite _select_assessor_other.
Qed.

(** C3. [_select_assessor], for every shaping mode. Under [STANDARD] it
    returns an assessor of the base components and of the shaping
    components it was handed, which [make_assessor] fixes to the empty
    tuple: the assessor has no shaping component. Under [EXTRA] it returns
    an assessor of the base components and exactly two shaping components,
    [wings_level] on the roll angle and [no_sideslip] on the sideslip
    angle, both potential based, scaled by [ROLL_ERROR_SCALING_RAD] and
    [SIDESLIP_ERROR_SCALING_DEG]. Under any other mode it raises
    [ValueError] and returns no assessor, and so does the constructor. *)
Theorem select_assessor_spec
    (self : t) (base shaping_components
                  : list rewards.AsymptoticErrorComponent) :
  _select_assessor self base shaping_components STANDARD
  = Ok {| assessors.base_components := base;
          assessors.potential_components := shaping_components;
          assessors.positive_rewards := positive_rewards self |}
  /\ make_assessor self STANDARD
     = Ok {| assessors.base_components :=
               _make_base_reward_components self;
             assessors.potential_components := [];
             assessors.positive_rewards := positive_rewards self |}
  /\ (exists wings no_slip,
        _select_assessor self base shaping_components EXTRA
        = Ok {| assessors.base_components := base;
                assessors.potential_components := [wings; no_slip];
                assessors.positive_rewards := positive_rewards self |}
        /\ rewards.name wings = "wings_level"
        /\ rewards.prop wings = prp.roll_rad
        /\ rewards.is_potential_based wings = true
        /\ rewards.scaling_factor wings = ROLL_ERROR_SCALING_RAD
        /\ rewards.name no_slip = "no_sideslip"
        /\ rewards.prop no_slip = prp.sideslip_deg
        /\ rewards.is_potential_based no_slip = true
        /\ rewards.scaling_factor no_slip = SIDESLIP_ERROR_SCALING_DEG)
  /\ (forall shaping : Shaping,
        shaping <> STANDARD -> shaping <> EXTRA ->
        (exists msg,
           _select_assessor self base shaping_components shaping
           = Raise (ValueError msg))
        /\ (forall a,
              _select_assessor self base shaping_components shaping
              <> Ok a)
        /\ forall step_frequency_hz aircraft episode_time_s
             positive_rewards,
             exists msg,
               __init__ shaping step_frequency_hz aircraft episode_time_s
                 positive_rewards
               = Raise (ValueError msg)).
Proof.
  split; [reflexivity|]. split; [reflexivity|]. split.
  - exists (wings_level self), (no_sideslip self). cbn. tauto.
  - intros shaping Hs He. repeat split.
    + eexists. now apply _select_assessor_other.
    + intros a. now rewrite _select_assessor_other.
    + intros. eexists. now apply __init___other.
Qed.

End assessor.

Section assessor_examples.
Import TrajectoryTask.

Lemma select_assessor_witness :
  let self := examples.task true in
  (exists msg,
     _select_assessor self
       (_make_base_reward_components (PB := examples.bounds) self) []
       EXTRA_SEQUENTIAL
     = Raise (ValueError msg))
  /\ (exists msg,
        _select_assessor self [] [] (stage "stage1")
        = Raise (ValueError msg)).
Proof.
  intros self. split.
  - destruct (select_assessor_spec
                (FT := examples.flight_task) (PB := examples.bounds) self
                (_make_base_reward_components (PB := examples.bounds) self)
                []) as (_ & _ & _ & Hother).
    refine (proj1 (Hother EXTRA_SEQUENTIAL _ _)); discriminate.
  - destruct (select_assessor_spec
                (FT := examples.flight_task) (PB := examples.bounds) self
                [] []) as (_ & _ & _ & Hother).
    refine (proj1 (Hother (stage "stage1") _ _)); discriminate.
Defined.

End assessor_examples.

(** ** [TrajectoryTask]: the target position *)

Section episode.
Context {FT : FlightTask} {SC : SimulationControls} {PB : PropertyBounds}.
Import TrajectoryTask.
Local Open Scope R_scope.

Lemma _get_target_position_started (self : t) x y z :
  init_ecef_position self = Some [x; y; z] ->
  _get_target_position self "x" = Ok (TARGET_xPOSITION_FT + x)
  /\ _get_target_position self "y" = Ok (TARGET_yPOSITION_FT + y)
  /\ _get_target_position self "z" = Ok (TARGET_zPOSITION_FT + z).
Proof.
  intros Hinit. unfold _get_target_position, get_init_ecef_position.
  rewrite Hinit. repeat split.
Qed.

Lemma _get_target_position_unknown (self : t) (flag : string) :
  flag <> "x" -> flag <> "y" -> flag <> "z" ->
  _get_target_position self flag
  = Raise (ValueError ("Unsupported flag in get target position: "
                       +:+ flag)).
Proof.
  intros Hx Hy Hz. unfold _get_target_position.
  now rewrite !decide_False.
Qed.

(** C8. For every flag, [_get_target_position] raises [ValueError] when the
    flag is none of ["x"], ["y"], ["z"], whatever the state of the task, and
    so yields no value for it; in an episode (the anchor
    [init_ecef_position] is set) it returns a value exactly for the flags
    ["x"], ["y"] and ["z"]. *)
Theorem get_target_position_spec (self : t) (flag : string) :
  (flag <> "x" -> flag <> "y" -> flag <> "z" ->
   (exists msg, _get_target_position self flag = Raise (ValueError msg))
   /\ forall v, _get_target_position self flag <> Ok v)
  /\ (forall x y z,
        init_ecef_position self = Some [x; y; z] ->
        (exists v, _get_target_position self flag = Ok v)
        <-> flag = "x" \/ flag = "y" \/ flag = "z").
Proof.
  split.
  - intros Hx Hy Hz. rewrite _get_target_position_unknown by assumption.
    split; [eauto | discriminate].
  - intros x y z Hinit.
    destruct (_get_target_position_started self x y z Hinit)
      as (Hx & Hy & Hz).
    split.
    + intros [v Hv].
      destruct (decide (flag = "x")) as [|Hnx]; [tauto|].
      destruct (decide (flag = "y")) as [|Hny]; [tauto|].
      destruct (decide (flag = "z")) as [|Hnz]; [tauto|].
      rewrite _get_target_position_unknown in Hv by assumption.
      discriminate.
    + intros [-> | [-> | ->]]; eauto.
Qed.

End episode.

Section episode_examples.
Import TrajectoryTask.
Local Open Scope R_scope.

Lemma get_target_position_witness :
  (exists msg,
     _get_target_position (examples.started_task true) "w"
     = Raise (ValueError msg))
  /\ (exists v, _get_target_position (examples.started_task true) "y" = Ok v).
Proof.
  split.
  - refine (proj1 (proj1 (get_target_position_spec
                            (examples.started_task true) "w") _ _ _));
      discriminate.
  - refine (proj2 (proj2 (get_target_position_spec
                            (examples.started_task true) "y")
                     100 200 300 eq_refl) _).
    right. left. reflexivity.
Defined.

End episode_examples.

(** ** [TrajectoryTask]: the per-step update, the terminal reward and the
    episode *)

Section steps.
Context {FT : FlightTask} {SC : SimulationControls} {PB : PropertyBounds}.
Import TrajectoryTask.
Local Open Scope R_scope.

Lemma _update_custom_properties_started (self : t) sim x y z :
  init_ecef_position self = Some [x; y; z] ->
  _update_custom_properties self sim
  = Ok (sim_set
          (sim_set
             (sim_set sim position_error_mt (prp.Norm (horizontal_offset sim)))
             altitude_error_ft
             (sim prp.ecef_z_ft - (TARGET_zPOSITION_FT + z)))
          (steps_left self) (sim (steps_left self) - 1)).
Proof.
  intros Hinit.
  destruct (_get_target_position_started self x y z Hinit) as (_ & _ & Hz).
  unfold _update_custom_properties, _update_altitude_error.
  rewrite Hz. reflexivity.
Qed.

Lemma Norm_euclidean (v : prp.Vector2) :
  0 <= prp.Norm v
  /\ prp.Norm v * prp.Norm v = prp.vx v * prp.vx v + prp.vy v * prp.vy v.
Proof.
  unfold prp.Norm. split; [apply sqrt_pos|].
  apply sqrt_sqrt. nra.
Qed.

(** C6. In an episode, the per-step update recomputes the errors from the
    store it is given: [position_error] becomes the Euclidean norm of the
    horizontal offset [(ecef_x - target_x, ecef_y - target_y)], which is the
    number that is not negative and whose square is the sum of the squares
    of the two offsets, and [altitude_error] becomes the signed difference
    [ecef_z - target_z], [target_z] being what [_get_target_position "z"]
    returns. *)
Theorem update_errors_spec (self : t) (sim : Simulation) (x y z : R) :
  init_ecef_position self = Some [x; y; z] ->
  exists sim' target_z,
    _update_custom_properties self sim = Ok sim'
    /\ _get_target_position self "z" = Ok target_z
    /\ sim' position_error_mt
       = sqrt ((sim prp.ecef_x_ft - sim target_Xposition)
                 * (sim prp.ecef_x_ft - sim target_Xposition)
               + (sim prp.ecef_y_ft - sim target_Yposition)
                   * (sim prp.ecef_y_ft - sim target_Yposition))
    /\ 0 <= sim' position_error_mt
    /\ sim' position_error_mt * sim' position_error_mt
       = (sim prp.ecef_x_ft - sim target_Xposition)
           * (sim prp.ecef_x_ft - sim target_Xposition)
         + (sim prp.ecef_y_ft - sim target_Yposition)
             * (sim prp.ecef_y_ft - sim target_Yposition)
    /\ sim' altitude_error_ft = sim prp.ecef_z_ft - target_z.
Proof.
  intros Hinit.
  destruct (_get_target_position_started self x y z Hinit) as (_ & _ & Hz).
  eexists _, _.
  split; [exact (_update_custom_properties_started self sim x y z Hinit)|].
  split; [exact Hz|].
  destruct (Norm_euclidean (horizontal_offset sim)) as [Hpos Hsq].
  repeat split; assumption.
Qed.

Lemma _update_custom_properties_frame (self : t) sim x y z :
  init_ecef_position self = Some [x; y; z] ->
  exists sim',
    _update_custom_properties self sim = Ok sim'
    /\ sim' (steps_left self) = sim (steps_left self) - 1
    /\ sim' target_Xposition = sim target_Xposition
    /\ sim' target_Yposition = sim target_Yposition.
Proof.
  intros Hinit. eexists.
  split; [exact (_update_custom_properties_started self sim x y z Hinit)|].
  repeat split.
Qed.

Lemma _new_episode_init_ok (self : t) (sim : Simulation) :
  let sim0 :=
    set_throttle_mixture_controls (FlightTask_new_episode_init sim)
      THROTTLE_CMD MIXTURE_CMD in
  let x := sim0 prp.ecef_x_ft in
  let y := sim0 prp.ecef_y_ft in
  let z := sim0 prp.ecef_z_ft in
  _new_episode_init self sim
  = Ok (set_init_ecef_position self [x; y; z],
        sim_set
          (sim_set
             (sim_set sim0 (steps_left self) (prp.max (steps_left self)))
             target_Xposition (TARGET_xPOSITION_FT + x))
          target_Yposition (TARGET_yPOSITION_FT + y)).
Proof. reflexivity. Qed.

Lemma run_steps_started (self : t) x y z physics :
  init_ecef_position self = Some [x; y; z] ->
  Forall keeps_task_properties physics ->
  forall sim,
  exists sim',
    run_steps self physics sim = Ok sim'
    /\ sim' (steps_left self) = sim (steps_left self) - INR (length physics)
    /\ sim' target_Xposition = sim target_Xposition
    /\ sim' target_Yposition = sim target_Yposition.
Proof.
  intros Hinit Hkeep.
  induction Hkeep as [|integrate rest Hhead _ IH]; intros sim.
  - exists sim. cbn. repeat split. lra.
  - destruct (_update_custom_properties_frame self (integrate sim) x y z Hinit)
      as (sim1 & Hupd & Hsteps & HX & HY).
    destruct (IH sim1) as (sim' & Hrun & Hsteps' & HX' & HY').
    destruct (Hhead sim) as (Hs & Htx & Hty).
    exists sim'. cbn [run_steps]. rewrite Hupd. cbn [bind].
    split; [exact Hrun|].
    change (integrate sim (steps_left self))
      with (integrate sim prp.info_steps_left) in Hsteps.
    change (integrate sim target_Xposition)
      with (integrate sim prp.target_positionX_ft) in HX.
    change (integrate sim target_Yposition)
      with (integrate sim prp.target_positionY_ft) in HY.
    rewrite Hsteps', HX', HY', Hsteps, HX, HY, Hs, Htx, Hty.
    rewrite length_cons, S_INR. repeat split.
    change (sim (steps_left self)) with (sim prp.info_steps_left). lra.
Qed.

Lemma __init___ok shaping step_frequency_hz aircraft episode_time_s
    positive_rewards :
  shaping = STANDARD \/ shaping = EXTRA ->
  exists self,
    __init__ shaping step_frequency_hz aircraft episode_time_s
      positive_rewards = Ok self
    /\ episode_steps self = Zceil (episode_time_s * step_frequency_hz)
    /\ init_ecef_position self = None.
Proof. intros [-> | ->]; eexists; repeat split. Qed.

Lemma __init___episode_steps shaping step_frequency_hz aircraft
    episode_time_s positive_rewards self :
  __init__ shaping step_frequency_hz aircraft episode_time_s
    positive_rewards = Ok self ->
  episode_steps self = Zceil (episode_time_s * step_frequency_hz).
Proof.
  unfold __init__. destruct (make_assessor _ shaping); cbn; [|discriminate].
  intros [= <-]. reflexivity.
Qed.

Lemma Zceil_60_5 : Zceil (60 * 5) = 300%Z.
Proof. apply Zceil_eq. lra. Qed.

Lemma _get_target_position_anchor (self : t) x y z :
  _get_target_position (set_init_ecef_position self [x; y; z]) "z"
  = Ok (TARGET_zPOSITION_FT + z).
Proof. now apply (_get_target_position_started _ x y z). Qed.

(** C1. When the altitude error has left the envelope
    (|altitude_error| > MAX_ALTITUDE_DEVIATION_FT) and the task is
    configured with [positive_rewards = false],
    [_reward_terminal_override] drops the reward it is given and returns a
    Reward whose agent and assessment rewards both are
    [-(1 + steps_left)], [steps_left] being the value the store holds at
    the call: after the update hook of the step, that is one less than
    before it. When [positive_rewards] is true the reward is returned
    unchanged, whatever the altitude error. *)
Theorem reward_terminal_override_spec
    (self : t) (reward : rewards.Reward) (sim : Simulation) :
  (Rabs (sim altitude_error_ft) > MAX_ALTITUDE_DEVIATION_FT ->
   positive_rewards self = false ->
   let r := _reward_terminal_override self reward sim in
   rewards.agent_reward r = - (1 + sim (steps_left self))
   /\ rewards.assessment_reward r = - (1 + sim (steps_left self))
   /\ forall before x y z,
        init_ecef_position self = Some [x; y; z] ->
        _update_custom_properties self before = Ok sim ->
        sim (steps_left self) = before (steps_left self) - 1)
  /\ (positive_rewards self = true ->
      _reward_terminal_override self reward sim = reward).
Proof.
  split.
  - intros Hout Hneg. unfold _reward_terminal_override.
    apply (proj2 (_altitude_out_of_bounds_true self sim)) in Hout.
    rewrite Hout, Hneg.
    cbn. split; [lra|]. split; [lra|].
    intros before x y z Hinit Hupd.
    destruct (_update_custom_properties_frame self before x y z Hinit)
      as (sim' & Hupd' & Hsteps & _).
    rewrite Hupd in Hupd'. injection Hupd' as <-. exact Hsteps.
  - intros Hpos. unfold _reward_terminal_override.
    rewrite Hpos. now rewrite andb_false_r.
Qed.

Lemma INR_300 : INR 300 = 300.
Proof. rewrite INR_IZR_INZ. reflexivity. Qed.

(** C4. Each per-step update of an episode lowers [steps_left] by exactly 1.
    Every episode start sets it to its maximum, the bound of the property
    [steps_left], whatever the store and the instance were before; for a
    task built by [__init__] that maximum is
    [ceil (episode_time_s * step_frequency_hz)], which is 300 for
    [episode_time_s = 60] and [step_frequency_hz = 5]. In an episode of
    such a task, after [n] steps [steps_left] is [300 - n]: it is positive
    before the 300th step, and after 300 steps [_is_terminal] is true. *)
Theorem steps_left_spec :
  (forall (self : t) sim x y z,
     init_ecef_position self = Some [x; y; z] ->
     exists sim',
       _update_custom_properties self sim = Ok sim'
       /\ sim' (steps_left self) = sim (steps_left self) - 1)
  /\ (forall (self : t) sim,
        exists self' sim',
          _new_episode_init self sim = Ok (self', sim')
          /\ steps_left self' = steps_left self
          /\ sim' (steps_left self') = prp.max (steps_left self))
  /\ (forall shaping step_frequency_hz aircraft episode_time_s
        positive_rewards self,
        __init__ shaping step_frequency_hz aircraft episode_time_s
          positive_rewards = Ok self ->
        prp.max (steps_left self)
        = IZR (Zceil (episode_time_s * step_frequency_hz)))
  /\ Zceil (60 * 5) = 300%Z
  /\ (forall shaping aircraft positive_rewards self sim self' sim0 physics,
        __init__ shaping 5 aircraft 60 positive_rewards = Ok self ->
        _new_episode_init self sim = Ok (self', sim0) ->
        Forall keeps_task_properties physics ->
        sim0 (steps_left self') = 300
        /\ exists sim',
             run_steps self' physics sim0 = Ok sim'
             /\ sim' (steps_left self') = 300 - INR (length physics)
             /\ ((length physics < 300)%nat ->
                 ~ sim' (steps_left self') <= 0)
             /\ (length physics = 300%nat -> _is_terminal self' sim' = true)).
Proof.
  split; [|split; [|split; [|split]]].
  - intros self sim x y z Hinit.
    destruct (_update_custom_properties_frame self sim x y z Hinit)
      as (sim' & Hupd & Hsteps & _).
    now exists sim'.
  - intros self sim. eexists _, _.
    split; [apply _new_episode_init_ok|]. split; reflexivity.
  - intros shaping f a e p self Hnew. cbn.
    now rewrite (__init___episode_steps _ _ _ _ _ _ Hnew).
  - exact Zceil_60_5.
  - intros shaping a p self sim self' sim0 physics Hnew Hstart Hkeep.
    apply __init___episode_steps in Hnew. rewrite Zceil_60_5 in Hnew.
    rewrite _new_episode_init_ok in Hstart.
    injection Hstart as <- <-.
    split; [cbn; now rewrite Hnew|].
    match goal with
    | |- context [run_steps ?s physics ?m] =>
        destruct (run_steps_started s _ _ _ physics eq_refl Hkeep m)
          as (sim' & Hrun & Hsteps & _)
    end.
    exists sim'. split; [exact Hrun|].
    assert (Hcount : sim' prp.info_steps_left = 300 - INR (length physics)).
    { etransitivity; [exact Hsteps|]. cbn. now rewrite Hnew. }
    split; [exact Hcount|]. split.
    + intros Hlt. apply lt_INR in Hlt.
      rewrite INR_300 in Hlt.
      change (sim' (steps_left _)) with (sim' prp.info_steps_left).
      lra.
    + intros Hlen. apply _is_terminal_true. left.
      change (sim' (steps_left _)) with (sim' prp.info_steps_left).
      rewrite Hcount, Hlen, INR_300. lra.
Qed.

(** C5. An episode start captures the position of the aircraft as the
    anchor [init_ecef_position] and sets the target to the anchor plus the
    offset (2000, -8000, 0): for the anchor (100, 200, 300) the target is
    (2100, -7800, 300). Through the steps of the episode, whatever the
    simulator does to the other properties, the three coordinates of the
    target stay what they were at the start. *)
Theorem target_position_spec (self : t) (sim : Simulation) :
  exists self' sim0 x y z,
    _new_episode_init self sim = Ok (self', sim0)
    /\ init_ecef_position self' = Some [x; y; z]
    /\ (x, y, z)
       = (let entered :=
            set_throttle_mixture_controls (FlightTask_new_episode_init sim)
              THROTTLE_CMD MIXTURE_CMD in
          (entered prp.ecef_x_ft, entered prp.ecef_y_ft,
           entered prp.ecef_z_ft))
    /\ sim0 target_Xposition = 2000 + x
    /\ sim0 target_Yposition = -8000 + y
    /\ _get_target_position self' "z" = Ok (0 + z)
    /\ (x = 100 -> y = 200 -> z = 300 ->
        sim0 target_Xposition = 2100
        /\ sim0 target_Yposition = -7800
        /\ _get_target_position self' "z" = Ok 300)
    /\ (forall physics,
          Forall keeps_task_properties physics ->
          exists sim',
            run_steps self' physics sim0 = Ok sim'
            /\ sim' target_Xposition = sim0 target_Xposition
            /\ sim' target_Yposition = sim0 target_Yposition
            /\ _get_target_position self' "z" = Ok (0 + z)).
Proof.
  eexists _, _, _, _, _.
  split; [apply _new_episode_init_ok|].
  split; [reflexivity|]. split; [reflexivity|].
  split; [reflexivity|]. split; [reflexivity|]. split; [reflexivity|].
  split.
  - intros Hx Hy Hz. split; [|split].
    + rewrite sim_set_ne by discriminate. rewrite sim_set_eq, Hx.
      unfold TARGET_xPOSITION_FT. lra.
    + rewrite sim_set_eq, Hy. unfold TARGET_yPOSITION_FT. lra.
    + rewrite _get_target_position_anchor, Hz.
      f_equal. unfold TARGET_zPOSITION_FT. lra.
  - intros physics Hkeep.
    match goal with
    | |- context [run_steps ?s physics ?m] =>
        destruct (run_steps_started s _ _ _ physics eq_refl Hkeep m)
          as (sim' & Hrun & _ & HX & HY)
    end.
    exists sim'. split; [exact Hrun|].
    split; [exact HX|]. split; [exact HY|]. reflexivity.
Qed.

Lemma move_to_keeps x y z : keeps_task_properties (move_to x y z).
Proof. intros sim. repeat split. Qed.

End steps.

Section steps_examples.
Import TrajectoryTask.
Local Open Scope R_scope.

Lemma reward_terminal_override_witness :
  let sim := examples.store [(prp.error_altitude_error_ft, 1001);
                             (prp.info_steps_left, 7)] in
  let reward := rewards.RewardStub (1 / 2) (1 / 2) in
  (let r :=
     _reward_terminal_override (PB := examples.bounds)
       (examples.task false) reward sim in
   rewards.agent_reward r = - (1 + 7)
   /\ rewards.assessment_reward r = - (1 + 7))
  /\ _reward_terminal_override (PB := examples.bounds)
       (examples.task true) reward sim = reward.
Proof.
  intros sim reward. split.
  - assert (Hout : Rabs 1001 > MAX_ALTITUDE_DEVIATION_FT).
    { rewrite Rabs_pos_eq; unfold MAX_ALTITUDE_DEVIATION_FT; lra. }
    destruct (proj1 (reward_terminal_override_spec (PB := examples.bounds)
                       (examples.task false) reward sim) Hout eq_refl)
      as (Hagent & Hassessment & _).
    split; [exact Hagent | exact Hassessment].
  - exact (proj2 (reward_terminal_override_spec (PB := examples.bounds)
                    (examples.task true) reward sim) eq_refl).
Defined.

Lemma update_errors_witness :
  let sim :=
    examples.store [(prp.ecef_x_ft, 3); (prp.ecef_y_ft, 4);
                    (prp.ecef_z_ft, 100)] in
  exists sim',
    _update_custom_properties (PB := examples.bounds)
      (examples.started_task true) sim = Ok sim'
    /\ 0 <= sim' prp.error_position_error_mt
    /\ sim' prp.error_position_error_mt * sim' prp.error_position_error_mt
       = 25
    /\ sim' prp.error_altitude_error_ft = -200.
Proof.
  intros sim.
  destruct (update_errors_spec (PB := examples.bounds)
              (examples.started_task true) sim 100 200 300 eq_refl)
    as (sim' & target_z & Hupd & Hz & _ & Hpos & Hsq & Halt).
  exists sim'. split; [exact Hupd|]. split; [exact Hpos|].
  change (Ok (TARGET_zPOSITION_FT + 300) = Ok target_z) in Hz.
  injection Hz as <-.
  split.
  - etransitivity; [exact Hsq|].
    change ((3 - 0) * (3 - 0) + (4 - 0) * (4 - 0) = 25). lra.
  - etransitivity; [exact Halt|].
    change (100 - (TARGET_zPOSITION_FT + 300) = -200).
    unfold TARGET_zPOSITION_FT. lra.
Defined.

Lemma steps_left_witness :
  let physics := replicate 300 (move_to 1 2 3) in
  __init__ (FT := examples.flight_task) (PB := examples.bounds)
    STANDARD 5 examples.plane 60 true = Ok examples.built_task
  /\ exists self' sim0 sim',
       _new_episode_init (FT := examples.flight_task)
         (SC := examples.controls) examples.built_task (examples.store [])
       = Ok (self', sim0)
       /\ sim0 prp.info_steps_left = 300
       /\ run_steps (PB := examples.bounds) self' physics sim0 = Ok sim'
       /\ sim' prp.info_steps_left = 300 - INR 300
       /\ _is_terminal (PB := examples.bounds) self' sim' = true.
Proof.
  intros physics.
  assert (Hnew : __init__ (FT := examples.flight_task)
                   (PB := examples.bounds) STANDARD 5 examples.plane 60 true
                 = Ok examples.built_task) by reflexivity.
  split; [exact Hnew|].
  pose proof (_new_episode_init_ok (FT := examples.flight_task)
                (SC := examples.controls) examples.built_task
                (examples.store [])) as Hstart.
  cbv zeta in Hstart.
  assert (Hkeep : Forall keeps_task_properties physics)
    by apply Forall_replicate, move_to_keeps.
  destruct (steps_left_spec (FT := examples.flight_task)
              (SC := examples.controls) (PB := examples.bounds))
    as (_ & _ & _ & _ & Hcount).
  destruct (Hcount STANDARD examples.plane true examples.built_task
              (examples.store []) _ _ physics Hnew Hstart Hkeep)
    as (Hfull & sim' & Hrun & Hleft & _ & Hterminal).
  eexists _, _, sim'.
  split; [exact Hstart|]. split; [exact Hfull|]. split; [exact Hrun|].
  split.
  - etransitivity; [exact Hleft|]. unfold physics.
    now rewrite length_replicate.
  - apply Hterminal, length_replicate.
Defined.

Lemma target_position_witness :
  let sim :=
    examples.store [(prp.ecef_x_ft, 100); (prp.ecef_y_ft, 200);
                    (prp.ecef_z_ft, 300)] in
  let physics := [move_to 1 2 3; move_to 4 5 6] in
  exists self' sim0 sim',
    _new_episode_init (FT := examples.flight_task) (SC := examples.controls)
      (examples.task true) sim = Ok (self', sim0)
    /\ sim0 prp.target_positionX_ft = 2100
    /\ sim0 prp.target_positionY_ft = -7800
    /\ _get_target_position self' "z" = Ok 300
    /\ run_steps (PB := examples.bounds) self' physics sim0 = Ok sim'
    /\ sim' prp.target_positionX_ft = 2100
    /\ sim' prp.target_positionY_ft = -7800.
Proof.
  intros sim physics.
  destruct (target_position_spec (FT := examples.flight_task)
              (SC := examples.controls) (PB := examples.bounds)
              (examples.task true) sim)
    as (self' & sim0 & x & y & z & Hstart & _ & Hanchor & _ & _ & _
        & Hscenario & Hstable).
  change ((x, y, z) = (100, 200, 300)) in Hanchor.
  injection Hanchor as -> -> ->.
  destruct (Hscenario eq_refl eq_refl eq_refl) as (HX & HY & HZ).
  assert (Hkeep : Forall keeps_task_properties physics)
    by (repeat constructor; apply move_to_keeps).
  destruct (Hstable physics Hkeep) as (sim' & Hrun & HX' & HY' & _).
  exists self', sim0, sim'.
  split; [exact Hstart|]. split; [exact HX|]. split; [exact HY|].
  split; [exact HZ|]. split; [exact Hrun|].
  split; [exact (eq_trans HX' HX) | exact (eq_trans HY' HY)].
Defined.

End steps_examples.

(** ** Initial conditions *)

Section initial_conditions.
Context {FT : FlightTask} {PB : PropertyBounds}.
Local Open Scope R_scope.

Lemma dict_merge_lookup (a b : gmap prp.Property R) (k : prp.Property) :
  dict_merge a b !! k
  = match b !! k with
    | Some v => Some v
    | None => a !! k
    end.
Proof.
  unfold dict_merge. rewrite lookup_union.
  destruct (b !! k), (a !! k); reflexivity.
Qed.

(** C7. [get_initial_conditions] of [TrajectoryTask] is the merge of the
    base initial conditions with the conditions of the task, where the value
    of the task wins on a key of both: each of the eight keys of the task
    has the value of the task, whatever the base holds for it, and every
    other key has what the base holds. In [TurnHeadingControlTask] the
    returned mapping holds, for the initial heading, the heading drawn at
    random in place of what the parent's mapping holds. *)
Theorem get_initial_conditions_spec (self : TrajectoryTask.t) :
  (forall (a b : gmap prp.Property R) k,
     dict_merge a b !! k
     = match b !! k with
       | Some v => Some v
       | None => a !! k
       end)
  /\ (exists extra_conditions : gmap prp.Property R,
        TrajectoryTask.get_initial_conditions self
        = dict_merge base_initial_conditions extra_conditions
        /\ extra_conditions !! prp.initial_u_fps
           = Some (get_cruise_speed_fps (TrajectoryTask.aircraft self))
        /\ extra_conditions !! prp.initial_v_fps = Some 0
        /\ extra_conditions !! prp.initial_w_fps = Some 0
        /\ extra_conditions !! prp.initial_p_radps = Some 0
        /\ extra_conditions !! prp.initial_q_radps = Some 0
        /\ extra_conditions !! prp.initial_r_radps = Some 0
        /\ extra_conditions !! prp.initial_roc_fpm = Some 0
        /\ extra_conditions !! prp.initial_heading_deg
           = Some TrajectoryTask.INITIAL_HEADING_DEG
        /\ forall k, k ∉ extra_keys -> extra_conditions !! k = None)
  /\ TrajectoryTask.get_initial_conditions self !! prp.initial_heading_deg
     = Some TrajectoryTask.INITIAL_HEADING_DEG
  /\ (forall k,
        k ∉ extra_keys ->
        TrajectoryTask.get_initial_conditions self !! k
        = base_initial_conditions !! k)
  /\ (forall (T : Type) (super : T -> gmap prp.Property R) (task : T) u,
        TurnHeadingControlTask.get_initial_conditions super task u
          !! prp.initial_heading_deg
        = Some (random.uniform (prp.min heading_deg) (prp.max heading_deg)
                  u)).
Proof.
  assert (Hother : forall k, k ∉ extra_keys ->
            dict_literal
              [ (prp.initial_u_fps,
                 get_cruise_speed_fps (TrajectoryTask.aircraft self));
                (prp.initial_v_fps, 0); (prp.initial_w_fps, 0);
                (prp.initial_p_radps, 0); (prp.initial_q_radps, 0);
                (prp.initial_r_radps, 0); (prp.initial_roc_fpm, 0);
                (prp.initial_heading_deg,
                 TrajectoryTask.INITIAL_HEADING_DEG) ] !! k = None).
  { intros k Hk. unfold extra_keys in Hk.
    rewrite !not_elem_of_cons in Hk.
    unfold dict_literal. cbn [foldl fst snd].
    rewrite !lookup_insert_ne by intuition congruence.
    apply lookup_empty. }
  split; [exact dict_merge_lookup|]. split; [|split; [|split]].
  - eexists. split; [reflexivity|].
    repeat (split; [reflexivity|]). exact Hother.
  - unfold TrajectoryTask.get_initial_conditions.
    now rewrite dict_merge_lookup.
  - intros k Hk. unfold TrajectoryTask.get_initial_conditions.
    now rewrite dict_merge_lookup, Hother.
  - intros T super task u.
    unfold TurnHeadingControlTask.get_initial_conditions.
    apply lookup_insert_eq.
Qed.

(** C10. [get_initial_conditions] of [TurnHeadingControlTask] agrees with
    the parent's mapping on every key but [initial_heading_deg]; and when
    the bounds of [heading_deg] are in order the value it gives to
    [initial_heading_deg] lies between them, both included, for every draw
    [u] of the generator in [[0, 1)]. *)
Theorem turn_heading_initial_conditions_spec
    (T : Type) (super : T -> gmap prp.Property R) (task : T) (u : R) :
  prp.min heading_deg <= prp.max heading_deg ->
  0 <= u < 1 ->
  (forall k,
     k <> prp.initial_heading_deg ->
     TurnHeadingControlTask.get_initial_conditions super task u !! k
     = super task !! k)
  /\ exists v,
       TurnHeadingControlTask.get_initial_conditions super task u
         !! prp.initial_heading_deg = Some v
       /\ prp.min heading_deg <= v <= prp.max heading_deg.
Proof.
  intros Hbounds [Hlo Hhi].
  unfold TurnHeadingControlTask.get_initial_conditions. split.
  - intros k Hk. now apply lookup_insert_ne.
  - eexists. split; [apply lookup_insert_eq|].
    unfold random.uniform. split; nra.
Qed.

End initial_conditions.

Section initial_conditions_examples.
Local Open Scope R_scope.

Lemma get_initial_conditions_witness :
  TrajectoryTask.get_initial_conditions (FT := examples.flight_task)
    (examples.task true) !! prp.other "ic/h-sl-ft"
  = base_initial_conditions (FlightTask := examples.flight_task)
      !! prp.other "ic/h-sl-ft".
Proof.
  refine (proj1 (proj2 (proj2 (proj2
            (get_initial_conditions_spec (FT := examples.flight_task)
               (PB := examples.bounds) (examples.task true))))) _ _).
  unfold extra_keys. rewrite !not_elem_of_cons.
  repeat split; try discriminate.
  apply not_elem_of_nil.
Defined.

Lemma turn_heading_initial_conditions_witness :
  let super := fun _ : unit =>
    base_initial_conditions (FlightTask := examples.flight_task) in
  exists v,
    TurnHeadingControlTask.get_initial_conditions (PB := examples.bounds)
      super () (1 / 2) !! prp.initial_heading_deg = Some v
    /\ 0 <= v <= 360.
Proof.
  intros super.
  refine (proj2 (turn_heading_initial_conditions_spec
                   (PB := examples.bounds) unit super () (1 / 2) _ _)).
  - cbn. lra.
  - lra.
Defined.

End initial_conditions_examples.

(** * Further properties of the code *)

(** ** [utils.py]: [AttributeFormatter.translate] *)

Section translate.
Import AttributeFormatter.

Lemma illegal_iff c :
  illegal c
  <-> c = "\"%char \/ c = "-"%char \/ c = "/"%char \/ c = "."%char.
Proof.
  unfold illegal. cbn. rewrite !elem_of_cons, elem_of_nil. tauto.
Qed.

Lemma TRANSLATION_TABLE_ok :
  exists table,
    TRANSLATION_TABLE = Ok table
    /\ forall c, default c (table !! c) = clean_char c.
Proof.
  exists (<["."%char := "_"%char]> (<["/"%char := "_"%char]>
           (<["-"%char := "_"%char]> (<["\"%char := "_"%char]> ∅)))).
  split; [reflexivity|].
  intros c. unfold clean_char.
  destruct (decide (illegal c)) as [Hc|Hc]; rewrite illegal_iff in Hc.
  - destruct Hc as [-> | [-> | [-> | ->]]]; reflexivity.
  - rewrite !lookup_insert_ne by (intros <-; apply Hc; auto).
    now rewrite lookup_empty.
Qed.

Lemma translate_unfold text :
  exists table,
    (forall c, default c (table !! c) = clean_char c)
    /\ translate text = Ok (str_translate table text).
Proof.
  destruct TRANSLATION_TABLE_ok as (table & Htable & Hlookup).
  exists table. split; [exact Hlookup|].
  unfold translate. now rewrite Htable.
Qed.

Lemma clean_char_legal c : ~ illegal (clean_char c).
Proof.
  unfold clean_char. case_decide as Hc; [|exact Hc].
  rewrite illegal_iff. intros [H | [H | [H | H]]]; discriminate.
Qed.

Lemma clean_char_fixed c : clean_char c = c <-> ~ illegal c.
Proof.
  unfold clean_char. case_decide as Hc; [|tauto].
  split; [|tauto]. intros <-. rewrite illegal_iff.
  intros [H | [H | [H | H]]]; discriminate.
Qed.

Section table.
Context (table : gmap ascii ascii).
Hypothesis Hlookup : forall c, default c (table !! c) = clean_char c.

Lemma str_translate_length s :
  String.length (str_translate table s) = String.length s.
Proof. induction s as [|c s IH]; cbn; [reflexivity | now rewrite IH]. Qed.

Lemma str_translate_get s i :
  String.get i (str_translate table s) = clean_char <$> String.get i s.
Proof.
  revert i. induction s as [|c s IH]; intros i; cbn; [reflexivity|].
  destruct i as [|i]; cbn; [now rewrite Hlookup | apply IH].
Qed.

Lemma str_translate_app s1 s2 :
  str_translate table (s1 +:+ s2)
  = str_translate table s1 +:+ str_translate table s2.
Proof.
  induction s1 as [|c s1 IH]; [reflexivity|].
  change (String c s1 +:+ s2) with (String c (s1 +:+ s2)).
  cbn [str_translate]. now rewrite IH.
Qed.

Lemma str_translate_legal s :
  Forall (fun c => ~ illegal c)
    (String.list_ascii_of_string (str_translate table s)).
Proof.
  induction s as [|c s IH]; cbn; constructor; [|exact IH].
  rewrite Hlookup. apply clean_char_legal.
Qed.

Lemma str_translate_fixed s :
  str_translate table s = s
  <-> Forall (fun c => ~ illegal c) (String.list_ascii_of_string s).
Proof.
  induction s as [|c s IH]; cbn; [split; [constructor | reflexivity]|].
  rewrite Forall_cons, <- IH, <- clean_char_fixed, Hlookup.
  split; [intros [= Hc Hs]; now rewrite Hc, Hs | now intros [-> ->]].
Qed.

End table.

(** X1. [translate] always returns, and its result has the length of the
    text: at every position it holds ["_"] where the text holds one of the
    four characters of [ILLEGAL_CHARS], and the character of the text
    elsewhere. *)
Theorem translate_pointwise (text : string) :
  exists result,
    translate text = Ok result
    /\ String.length result = String.length text
    /\ forall i, String.get i result = clean_char <$> String.get i text.
Proof.
  destruct (translate_unfold text) as (table & Hlookup & ->).
  eexists. split; [reflexivity|]. split.
  - apply str_translate_length.
  - intros i. now apply str_translate_get.
Qed.

(** X2. The result of [translate] holds none of the characters of
    [ILLEGAL_CHARS], and translating it again changes nothing. *)
Theorem translate_clean (text : string) :
  exists result,
    translate text = Ok result
    /\ Forall (fun c => ~ illegal c) (String.list_ascii_of_string result)
    /\ translate result = Ok result.
Proof.
  destruct (translate_unfold text) as (table & Hlookup & ->).
  eexists. split; [reflexivity|].
  pose proof (str_translate_legal table Hlookup text) as Hlegal.
  split; [exact Hlegal|].
  destruct (translate_unfold (str_translate table text))
    as (table' & Hlookup' & ->).
  f_equal. now apply str_translate_fixed.
Qed.

(** X3. [translate] goes through concatenation: the translation of
    [s1 + s2] is the translation of [s1] followed by that of [s2]. *)
Theorem translate_app (s1 s2 : string) :
  exists r1 r2,
    translate s1 = Ok r1
    /\ translate s2 = Ok r2
    /\ translate (s1 +:+ s2) = Ok (r1 +:+ r2).
Proof.
  destruct TRANSLATION_TABLE_ok as (table & Htable & _).
  unfold translate. rewrite Htable. cbn [bind].
  eexists _, _. split; [reflexivity|]. split; [reflexivity|].
  f_equal. apply str_translate_app.
Qed.

(** X4. [translate] returns the text itself exactly when the text holds
    none of the characters of [ILLEGAL_CHARS]. *)
Theorem translate_fixed (text : string) :
  translate text = Ok text
  <-> Forall (fun c => ~ illegal c) (String.list_ascii_of_string text).
Proof.
  destruct (translate_unfold text) as (table & Hlookup & ->).
  rewrite <- (str_translate_fixed table Hlookup).
  split; [now intros [= ->] | now intros ->].
Qed.

End translate.

(** ** [utils.py]: [product] *)

Section product.
Import utils_more.
Local Open Scope R_scope.

Lemma foldl_Rmult a l : foldl Rmult a l = a * product l.
Proof.
  unfold product. revert a. induction l as [|x l IH]; intros a; cbn.
  - lra.
  - rewrite IH, (IH (1 * x)). lra.
Qed.

Lemma product_cons x l : product (x :: l) = x * product l.
Proof. unfold product at 1. cbn. rewrite foldl_Rmult. lra. Qed.

(** X9. The product of no number is 1, and the product of a concatenation
    is the product of the products of its parts. *)
Theorem product_app (l1 l2 : list R) :
  product [] = 1
  /\ product (l1 ++ l2) = product l1 * product l2.
Proof.
  split; [reflexivity|].
  unfold product at 1. rewrite foldl_app, foldl_Rmult.
  fold (product l1). reflexivity.
Qed.

Lemma product_IZR (l : list Z) :
  product (IZR <$> l) = IZR (foldl Z.mul 1%Z l).
Proof.
  unfold product.
  change 1 with (IZR 1). generalize 1%Z.
  induction l as [|x l IH]; intros a; cbn; [reflexivity|].
  now rewrite <- mult_IZR, IH.
Qed.

Lemma foldl_Zmul_zero (l : list Z) (a : Z) :
  foldl Z.mul a l = 0%Z <-> a = 0%Z \/ 0%Z ∈ l.
Proof.
  revert a. induction l as [|x l IH]; intros a; cbn.
  - split; [auto | intros [H|H]; [exact H | inv H]].
  - rewrite IH, elem_of_cons. split.
    + intros [H|H]; [|auto]. apply Z.mul_eq_0 in H as [->| ->]; auto.
    + intros [->|[<-|H]]; auto; left; lia.
Qed.

(** X10. On Python ints, whose products are exact, [product] is 0 exactly
    when one of the numbers is 0. *)
Theorem product_zero_int (l : list Z) :
  product (IZR <$> l) = 0 <-> 0%Z ∈ l.
Proof.
  rewrite product_IZR. split.
  - intros H%eq_IZR. apply foldl_Zmul_zero in H as [H|H]; [lia | exact H].
  - intros H. f_equal. apply foldl_Zmul_zero. now right.
Qed.

(** X11. [product] does not depend on the order of the numbers. *)
Theorem product_permutation (l1 l2 : list R) :
  l1 ≡ₚ l2 -> product l1 = product l2.
Proof.
  induction 1 as [|x l l' _ IH|x y l|l l' l'' _ IH1 _ IH2].
  - reflexivity.
  - now rewrite !product_cons, IH.
  - rewrite !product_cons. lra.
  - now rewrite IH1.
Qed.

End product.

Section product_examples.
Local Open Scope R_scope.

Lemma product_permutation_witness :
  utils_more.product [2; 3; 5] = utils_more.product [5; 2; 3].
Proof.
  apply product_permutation.
  change [5; 2; 3] with ([5] ++ [2; 3]).
  change [2; 3; 5] with ([2; 3] ++ [5]).
  apply Permutation_app_comm.
Defined.

End product_examples.

(** ** [utils.py]: [reduce_reflex_angle_deg], further *)

Section angle_more.
Import utils.
Local Open Scope R_scope.

Lemma float_mod_period x (k : Z) :
  float_mod (x + 360 * IZR k) 360 = float_mod x 360.
Proof.
  unfold float_mod.
  replace ((x + 360 * IZR k) / 360) with (x / 360 + IZR k) by (field; lra).
  rewrite Zfloor_addz, plus_IZR. lra.
Qed.

Lemma reduce_reflex_angle_deg_period x (k : Z) :
  reduce_reflex_angle_deg (x + 360 * IZR k) = reduce_reflex_angle_deg x.
Proof. unfold reduce_reflex_angle_deg. now rewrite float_mod_period. Qed.

Lemma reduce_reflex_angle_deg_shift x :
  exists k : Z, reduce_reflex_angle_deg x = x + 360 * IZR k.
Proof.
  unfold reduce_reflex_angle_deg, float_mod. case_bool_decide.
  - exists (- Zfloor (x / 360) - 1)%Z. rewrite minus_IZR, opp_IZR. lra.
  - exists (- Zfloor (x / 360))%Z. rewrite opp_IZR. lra.
Qed.

(** X12. Two whole numbers of degrees are reduced to the same value exactly
    when they differ by a whole number of turns. *)
Theorem reduce_reflex_angle_deg_congruent_integer (a b : Z) :
  reduce_reflex_angle_deg (IZR a) = reduce_reflex_angle_deg (IZR b)
  <-> exists k : Z, a = (b + 360 * k)%Z.
Proof.
  split.
  - intros Heq.
    destruct (reduce_reflex_angle_deg_shift (IZR a)) as [ka Ha].
    destruct (reduce_reflex_angle_deg_shift (IZR b)) as [kb Hb].
    exists (kb - ka)%Z. apply eq_IZR.
    rewrite plus_IZR, mult_IZR, minus_IZR. lra.
  - intros [k ->]. rewrite plus_IZR, mult_IZR.
    apply reduce_reflex_angle_deg_period.
Qed.

(** X13. On a whole number of degrees the result is a whole number between
    -179 and 180, the range that the docstring states. *)
Theorem reduce_reflex_angle_deg_integer (z : Z) :
  exists r : Z,
    reduce_reflex_angle_deg (IZR z) = IZR r /\ (-179 <= r <= 180)%Z.
Proof.
  destruct (reduce_reflex_angle_deg_shift (IZR z)) as [k Hk].
  exists (z + 360 * k)%Z.
  assert (Hr : reduce_reflex_angle_deg (IZR z) = IZR (z + 360 * k)).
  { rewrite Hk, plus_IZR, mult_IZR. reflexivity. }
  split; [exact Hr|].
  pose proof (reduce_reflex_angle_deg_range (IZR z)) as [Hlo Hhi].
  rewrite Hr in Hlo, Hhi.
  apply lt_IZR in Hlo. apply le_IZR in Hhi. lia.
Qed.

(** X14. On a whole number of degrees, reducing the opposite angle gives
    the opposite of the reduced angle, except where the reduced angle is
    180: there both the angle and its opposite are reduced to 180. *)
Theorem reduce_reflex_angle_deg_opp_integer (z : Z) :
  (reduce_reflex_angle_deg (IZR z) <> 180 ->
   reduce_reflex_angle_deg (IZR (- z)) = - reduce_reflex_angle_deg (IZR z))
  /\ (reduce_reflex_angle_deg (IZR z) = 180 ->
      reduce_reflex_angle_deg (IZR (- z)) = 180).
Proof.
  destruct (reduce_reflex_angle_deg_shift (IZR z)) as [k Hk].
  pose proof (reduce_reflex_angle_deg_range (IZR z)) as [Hlo Hhi].
  rewrite opp_IZR. split.
  - intros Hne.
    replace (- IZR z)
      with (- reduce_reflex_angle_deg (IZR z) + 360 * IZR k) by lra.
    rewrite reduce_reflex_angle_deg_period.
    apply reduce_reflex_angle_deg_fixed. lra.
  - intros Heq.
    replace (- IZR z) with (180 + 360 * IZR (k - 1))
      by (rewrite minus_IZR; lra).
    rewrite reduce_reflex_angle_deg_period.
    apply reduce_reflex_angle_deg_fixed. lra.
Qed.

End angle_more.

Section angle_examples.
Local Open Scope R_scope.

Lemma reduce_reflex_angle_deg_opp_integer_witness :
  utils.reduce_reflex_angle_deg (IZR (- (190)))
  = - utils.reduce_reflex_angle_deg (IZR 190)
  /\ utils.reduce_reflex_angle_deg (IZR (- (540))) = 180.
Proof.
  assert (H190 : utils.reduce_reflex_angle_deg 190 = -170).
  { replace 190 with (-170 + 360 * IZR 1) by lra.
    rewrite reduce_reflex_angle_deg_period.
    apply reduce_reflex_angle_deg_fixed. lra. }
  assert (H540 : utils.reduce_reflex_angle_deg 540 = 180).
  { replace 540 with (180 + 360 * IZR 1) by lra.
    rewrite reduce_reflex_angle_deg_period.
    apply reduce_reflex_angle_deg_fixed. lra. }
  split.
  - apply (proj1 (reduce_reflex_angle_deg_opp_integer 190)).
    rewrite H190. lra.
  - apply (proj2 (reduce_reflex_angle_deg_opp_integer 540)). exact H540.
Defined.

End angle_examples.

(** ** [utils.py]: [reduce_reflex_angle_deg] on ints and on doubles *)

Section angle_int.
Import utils.
Local Open Scope R_scope.

Lemma float_mod_IZR (z : Z) : float_mod (IZR z) 360 = IZR (z `mod` 360).
Proof.
  pose proof (Z.mod_pos_bound z 360 ltac:(lia)) as [Hlo Hhi].
  rewrite (Z.div_mod z 360) at 1 by lia.
  rewrite plus_IZR, mult_IZR, Rplus_comm, float_mod_period.
  apply float_mod_small. split.
  - now apply IZR_le.
  - now apply IZR_lt.
Qed.

(** X25. Called with an int, [reduce_reflex_angle_deg] computes on ints,
    and its result is the value that the model on exact reals gives at that
    integer. *)
Theorem reduce_reflex_angle_deg_int_exact (z : Z) :
  reduce_reflex_angle_deg (IZR z)
  = IZR (utils_int.reduce_reflex_angle_deg z).
Proof.
  unfold reduce_reflex_angle_deg, utils_int.reduce_reflex_angle_deg.
  cbv zeta. rewrite float_mod_IZR.
  case_bool_decide as HR; case_bool_decide as HZ.
  - now rewrite minus_IZR.
  - exfalso. apply HZ. apply Z.lt_gt, lt_IZR. lra.
  - exfalso. apply HR. apply Rlt_gt, IZR_lt. lia.
  - reflexivity.
Qed.

End angle_int.

Section angle_doubles.
Import Floats.

Lemma exact_on_sound z :
  exact_on z = true ->
  utils_binary64.reduce_reflex_angle_deg (utils_binary64.of_int z)
  = Some (utils_binary64.of_int (utils_int.reduce_reflex_angle_deg z)).
Proof.
  unfold exact_on.
  destruct (utils_binary64.reduce_reflex_angle_deg _) as [r|]; [|done].
  intros H%FloatAxioms.Leibniz.eqb_spec. now subst.
Qed.

(** X26. On the doubles that hold the whole numbers of degrees from -3600
    to 3600, ten turns each way, [reduce_reflex_angle_deg] rounds nothing:
    its result is the double that holds the result on ints. *)
Theorem reduce_reflex_angle_deg_whole_degrees (z : Z) :
  (-3600 <= z <= 3600)%Z ->
  utils_binary64.reduce_reflex_angle_deg (utils_binary64.of_int z)
  = Some (utils_binary64.of_int (utils_int.reduce_reflex_angle_deg z)).
Proof.
  intros Hz. apply exact_on_sound.
  assert (H : forallb exact_on (seqZ (-3600) 7201) = true)
    by (vm_compute; reflexivity).
  rewrite forallb_forall in H. apply H.
  apply list_elem_of_In, elem_of_seqZ. lia.
Qed.

End angle_doubles.

Section angle_doubles_examples.
Import Floats.

Lemma reduce_reflex_angle_deg_whole_degrees_witness :
  utils_binary64.reduce_reflex_angle_deg (-190)%float = Some 170%float.
Proof.
  apply (reduce_reflex_angle_deg_whole_degrees (-190)). lia.
Defined.

End angle_doubles_examples.

(** ** [utils.py]: [reduce_reflex_angle_deg] under rounding *)

Section angle_rounded.
Import utils_rounded.
Local Open Scope R_scope.
Variable F : R -> Prop.
Variable rnd : R -> R.
Hypothesis ieee : ieee_rounding F rnd.

Lemma Ztrunc_div_small x : -360 < x < 360 -> Ztrunc (x / 360) = 0%Z.
Proof.
  intros [Hlo Hhi]. unfold Ztrunc. case_bool_decide as Hx.
  - apply Zfloor_eq. cbn. lra.
  - apply Zceil_eq. cbn. lra.
Qed.

Lemma fmod_small x : -360 < x < 360 -> fmod x 360 = x.
Proof.
  intros Hx. unfold fmod. rewrite Ztrunc_div_small by exact Hx. lra.
Qed.

Lemma fmod_shift x : exists k : Z, fmod x 360 = x + 360 * IZR k.
Proof.
  exists (- Ztrunc (x / 360))%Z. unfold fmod. rewrite opp_IZR. lra.
Qed.

Lemma fmod_range x :
  (0 <= x -> 0 <= fmod x 360 < 360) /\ (x < 0 -> -360 < fmod x 360 <= 0).
Proof.
  unfold fmod, Ztrunc. split; intros Hx.
  - rewrite bool_decide_true by lra.
    pose proof (Zfloor_bound (x / 360)). lra.
  - rewrite bool_decide_false by lra.
    pose proof (Zceil_bound (x / 360)). lra.
Qed.

Lemma F_0 : F 0.
Proof. apply (integer_F _ _ ieee 0). lia. Qed.

Lemma F_360 : F 360.
Proof. apply (integer_F _ _ ieee 360). lia. Qed.

(** The remainder is a double between 0 and 360, and 360 it can be. *)
Lemma float_rem_range x :
  F x -> 0 <= float_rem rnd x 360 <= 360 /\ F (float_rem rnd x 360).
Proof.
  intros Fx. unfold float_rem. cbv zeta.
  pose proof (fmod_range x) as [Hpos Hneg].
  pose proof (fmod_F _ _ ieee x Fx) as Frem.
  case_bool_decide as Hz; [|split; [lra | apply F_0]].
  rewrite (bool_decide_false (360 < 0)) by lra.
  case_bool_decide as Hs; cbn.
  - destruct (Rle_lt_dec 0 x) as [Hx|Hx]; [specialize (Hpos Hx); lra|].
    specialize (Hneg Hx).
    pose proof (rnd_monotone _ _ ieee 0 (fmod x 360 + 360)) as Hlo.
    pose proof (rnd_monotone _ _ ieee (fmod x 360 + 360) 360) as Hhi.
    rewrite (rnd_exact _ _ ieee 0 F_0) in Hlo.
    rewrite (rnd_exact _ _ ieee 360 F_360) in Hhi.
    split; [lra|]. apply (rnd_F _ _ ieee). lra.
  - destruct (Rle_lt_dec 0 x) as [Hx|Hx];
      [specialize (Hpos Hx) | specialize (Hneg Hx)].
    + split; [lra | exact Frem].
    + lra.
Qed.

(** The remainder of a whole number of degrees is not rounded. *)
Lemma float_rem_integer (z : Z) :
  exists k : Z, float_rem rnd (IZR z) 360 = IZR z + 360 * IZR k.
Proof.
  unfold float_rem. cbv zeta.
  destruct (fmod_shift (IZR z)) as [k Hk].
  pose proof (fmod_range (IZR z)) as [Hpos Hneg].
  case_bool_decide as Hz.
  - rewrite (bool_decide_false (360 < 0)) by lra.
    case_bool_decide as Hs; cbn.
    + exists (k + 1)%Z.
      assert (Hx : IZR z < 0).
      { destruct (Rle_lt_dec 0 (IZR z)) as [Hx|Hx];
          [specialize (Hpos Hx); lra | exact Hx]. }
      specialize (Hneg Hx).
      rewrite (rnd_exact _ _ ieee).
      * rewrite plus_IZR. lra.
      * replace (fmod (IZR z) 360 + 360) with (IZR (z + 360 * k + 360))
          by (rewrite !plus_IZR, mult_IZR; lra).
        apply (integer_F _ _ ieee).
        assert (Hb : -360 < IZR (z + 360 * k) <= 0)
          by (rewrite plus_IZR, mult_IZR; lra).
        destruct Hb as [Hb1 Hb2].
        apply lt_IZR in Hb1. apply le_IZR in Hb2. lia.
    + exists k. exact Hk.
  - exists k. lra.
Qed.

(** The difference of line 104 is exact. *)
Lemma reduce_reflex_angle_deg_exact x :
  F x ->
  reduce_reflex_angle_deg rnd x
  = if bool_decide (float_rem rnd x 360 > 180)
    then float_rem rnd x 360 - 360
    else float_rem rnd x 360.
Proof.
  intros Fx. unfold reduce_reflex_angle_deg. cbv zeta.
  destruct (float_rem_range x Fx) as [Hn Fn].
  case_bool_decide as Hgt; [|reflexivity].
  apply (rnd_exact _ _ ieee), (sterbenz _ _ ieee);
    [exact Fn | apply F_360 | lra].
Qed.


End angle_rounded.

Section angle_rounded_examples.
Local Open Scope R_scope.

Lemma exact_rounding : ieee_rounding (fun _ => True) (fun x => x).
Proof. split; intros; auto. Qed.


End angle_rounded_examples.

(** ** [utils.py]: environment ids *)

Lemma string_app_assoc (a b c : string) : (a +:+ b) +:+ c = a +:+ b +:+ c.
Proof.
  induction a as [|x a IH]; [reflexivity|].
  change (String x ((a +:+ b) +:+ c) = String x (a +:+ b +:+ c)).
  now rewrite IH.
Qed.

Lemma dash_free_dash x b : dash_free (x +:+ "-" +:+ b) = false.
Proof.
  induction x as [|c x IH]; [reflexivity|].
  change (String c x +:+ "-" +:+ b) with (String c (x +:+ "-" +:+ b)).
  cbn [dash_free]. rewrite IH. apply andb_false_r.
Qed.

(** What follows the last ["-"] of a string, and what precedes it, are
    determined by the string. *)
Lemma last_field_inj (x y a b : string) :
  dash_free a = true -> dash_free b = true ->
  x +:+ "-" +:+ a = y +:+ "-" +:+ b -> x = y /\ a = b.
Proof.
  intros Ha Hb. revert y.
  induction x as [|c x IH]; intros [|d y] Heq.
  - change (String "-" a = String "-" b) in Heq.
    injection Heq as ->. done.
  - change (String "-" a = String d (y +:+ "-" +:+ b)) in Heq.
    injection Heq as _ ->. now rewrite dash_free_dash in Ha.
  - change (String c (x +:+ "-" +:+ a) = String "-" b) in Heq.
    injection Heq as _ <-. now rewrite dash_free_dash in Hb.
  - change (String c (x +:+ "-" +:+ a) = String d (y +:+ "-" +:+ b)) in Heq.
    injection Heq as -> Heq. destruct (IH _ Heq) as [-> ->]. done.
Qed.

Lemma NoDup_fmap_inj_on {X Y} (g : X -> Y) (l : list X) x y :
  NoDup (g <$> l) -> x ∈ l -> y ∈ l -> g x = g y -> x = y.
Proof.
  induction l as [|z l IH]; intros Hnd Hx Hy Heq; [inv Hx|].
  rewrite fmap_cons, NoDup_cons in Hnd. destruct Hnd as [Hz Hnd].
  apply elem_of_cons in Hx as [->|Hx]; apply elem_of_cons in Hy as [->|Hy].
  - reflexivity.
  - exfalso. apply Hz. rewrite Heq. now apply list_elem_of_fmap_2.
  - exfalso. apply Hz. rewrite <- Heq. now apply list_elem_of_fmap_2.
  - now apply IH.
Qed.

Lemma foldl_bind {X Y Z} (f : X -> Z -> X) (g : Y -> list Z) l x :
  foldl f x (l ≫= g) = foldl (fun x y => foldl f x (g y)) x l.
Proof.
  revert x. induction l as [|y l IH]; intros x; [reflexivity|].
  rewrite bind_cons, foldl_app. apply IH.
Qed.

Lemma sublist_bind_head {X Y} (g : X -> Y) (G : X -> list Y) (l : list X) :
  (forall x, exists r, G x = g x :: r) -> (g <$> l) `sublist_of` (l ≫= G).
Proof.
  intros HG. induction l as [|x l IH]; [constructor|].
  rewrite fmap_cons, bind_cons. destruct (HG x) as [r ->].
  cbn. constructor. now apply sublist_inserts_l.
Qed.

Ltac unbind H :=
  repeat (apply list_elem_of_bind in H as (? & H & ?));
  apply list_elem_of_singleton in H.

Section env_ids.
Context {A : Type} {AM : AircraftModule A}.
Import utils_more.

Lemma get_env_id_fields (a : A) t s f :
  get_env_id a t s f
  = (((name a +:+ "-" +:+ classes.__name__ t) +:+ "-" +:+ Shaping_format s)
       +:+ "-" +:+ (if f then "FG" else "NoFG")) +:+ "-" +:+ "v0".
Proof. unfold get_env_id. now rewrite !string_app_assoc. Qed.

(** X5. An id with FlightGear enabled is never an id with FlightGear
    disabled, whatever the aircraft, the tasks and the shapings are. *)
Theorem get_env_id_flightgear (a a' : A) t t' s s' :
  get_env_id a t s true <> get_env_id a' t' s' false.
Proof.
  rewrite !get_env_id_fields. intros Heq.
  apply last_field_inj in Heq as [Heq _]; [|reflexivity..].
  apply last_field_inj in Heq as [_ Hf]; [|reflexivity..].
  discriminate.
Qed.

Lemma get_env_id_inj_fields (a a' : A) t t' s s' f f' :
  dash_free (Shaping_format s) = true ->
  dash_free (Shaping_format s') = true ->
  get_env_id a t s f = get_env_id a' t' s' f' ->
  name a = name a' /\ t = t' /\ Shaping_format s = Shaping_format s'
  /\ f = f'.
Proof.
  intros Hs Hs'. rewrite !get_env_id_fields. intros Heq.
  apply last_field_inj in Heq as [Heq _]; [|reflexivity..].
  apply last_field_inj in Heq as [Heq Hf];
    [|now destruct f | now destruct f'].
  apply last_field_inj in Heq as [Heq Hsf]; [|assumption..].
  apply last_field_inj in Heq as [Hn Ht];
    [|now destruct t | now destruct t'].
  repeat split; [assumption | | assumption |].
  - destruct t, t'; (reflexivity || discriminate).
  - destruct f, f'; (reflexivity || discriminate).
Qed.

(** X6. When the shapings are written without ["-"], an id determines the
    name of the aircraft, the task class, how the shaping is written and
    the FlightGear setting, even if the name of the aircraft holds
    ["-"]. *)
Theorem get_env_id_inj (a a' : A) t t' s s' f f' :
  dash_free (Shaping_format s) = true ->
  dash_free (Shaping_format s') = true ->
  get_env_id a t s f = get_env_id a' t' s' f' ->
  name a = name a' /\ t = t' /\ Shaping_format s = Shaping_format s'
  /\ f = f'.
Proof. apply get_env_id_inj_fields. Qed.

Lemma get_env_id_kwargs_map_flat :
  get_env_id_kwargs_map = foldl register_kwargs (Some ∅) combos.
Proof. unfold combos. rewrite foldl_bind. reflexivity. Qed.

Lemma register_none cs : foldl register_kwargs None cs = None.
Proof. induction cs; [reflexivity | assumption]. Qed.

Lemma register_kwargs_some (m0 : gmap string kwargs) c :
  register_kwargs (Some m0) c
  = if decide (is_Some (m0 !! id_of c)) then None
    else Some (<[id_of c := c]> m0).
Proof. destruct c as [[[p t] s] f]. reflexivity. Qed.

(** The loop over a list of tuples: it ends with a map exactly when the
    ids are new and pairwise distinct, and the map then holds every tuple
    under its id, and nothing else that is new. *)
Lemma foldl_register cs (m0 : gmap string kwargs) :
  match foldl register_kwargs (Some m0) cs with
  | Some m =>
      NoDup (id_of <$> cs)
      /\ (forall c, c ∈ cs -> m0 !! id_of c = None /\ m !! id_of c = Some c)
      /\ (forall k, k ∉ id_of <$> cs -> m !! k = m0 !! k)
      /\ size m = (size m0 + length cs)%nat
  | None =>
      ~ NoDup (id_of <$> cs) \/ exists c, c ∈ cs /\ is_Some (m0 !! id_of c)
  end.
Proof.
  revert m0. induction cs as [|c cs IH]; intros m0.
  - cbn. split; [constructor|]. split; [intros c Hc; inv Hc|].
    split; [reflexivity | lia].
  - cbn [foldl]. rewrite register_kwargs_some.
    case_decide as Hin.
    + rewrite register_none. right. exists c. split; [left | exact Hin].
    + apply eq_None_not_Some in Hin.
      specialize (IH (<[id_of c := c]> m0)).
      destruct (foldl register_kwargs _ cs) as [m|].
      * destruct IH as (Hnd & Hcs & Hframe & Hsize).
        assert (Hfresh : id_of c ∉ id_of <$> cs).
        { intros (c' & Heq & Hc')%list_elem_of_fmap.
          destruct (Hcs c' Hc') as [Hnone _].
          rewrite <- Heq, lookup_insert_eq in Hnone. discriminate. }
        split; [rewrite fmap_cons; now constructor|].
        split; [|split].
        -- intros c' [->|Hc']%elem_of_cons.
           ++ split; [exact Hin|]. rewrite Hframe by exact Hfresh.
              apply lookup_insert_eq.
           ++ destruct (Hcs c' Hc') as [Hnone Hsome]. split; [|exact Hsome].
              destruct (decide (id_of c = id_of c')) as [Heq|Hne].
              ** rewrite Heq, lookup_insert_eq in Hnone. discriminate.
              ** now rewrite lookup_insert_ne in Hnone.
        -- intros k Hk. rewrite fmap_cons, not_elem_of_cons in Hk.
           destruct Hk as [Hne Hk]. rewrite Hframe by exact Hk.
           now rewrite lookup_insert_ne.
        -- rewrite Hsize, map_size_insert_None by exact Hin. cbn. lia.
      * destruct IH as [Hdup | (c' & Hc' & Hsome)].
        -- left. rewrite fmap_cons, NoDup_cons. tauto.
        -- destruct (decide (id_of c = id_of c')) as [Heq|Hne].
           ++ left. rewrite fmap_cons, NoDup_cons. intros [Hfresh _].
              apply Hfresh. rewrite Heq. now apply list_elem_of_fmap_2.
           ++ rewrite lookup_insert_ne in Hsome by exact Hne.
              right. exists c'. split; [now right | exact Hsome].
Qed.

Lemma elem_of_combos (p : A) t s f :
  (p, t, s, f) ∈ combos <-> p ∈ planes /\ t ∈ task_types /\ s ∈ shapings.
Proof.
  unfold combos. rewrite list_elem_of_bind. split.
  - intros (t' & (p' & (s' & (f' & Hc & Hf)%list_elem_of_bind & Hs)
                    %list_elem_of_bind & Hp)%list_elem_of_bind & Ht).
    apply list_elem_of_singleton in Hc. injection Hc as -> -> -> ->. done.
  - intros (Hp & Ht & Hs). exists t. split; [|exact Ht].
    apply list_elem_of_bind. exists p. split; [|exact Hp].
    apply list_elem_of_bind. exists s. split; [|exact Hs].
    apply list_elem_of_bind. exists f.
    split; [apply list_elem_of_singleton; reflexivity|].
    destruct f; [left | right; left].
Qed.

Lemma shapings_formats :
  NoDup (Shaping_format <$> shapings)
  /\ Forall (fun s => dash_free (Shaping_format s) = true) shapings.
Proof.
  split; apply (bool_decide_unpack _); vm_compute; exact I.
Qed.

Lemma NoDup_combos : NoDup planes -> NoDup combos.
Proof.
  intros Hplanes. unfold combos.
  apply NoDup_bind.
  - intros t1 t2 y _ _ H1 H2. unbind H1. unbind H2. congruence.
  - intros t _. apply NoDup_bind.
    + intros p1 p2 y _ _ H1 H2. unbind H1. unbind H2. congruence.
    + intros p _. apply NoDup_bind.
      * intros s1 s2 y _ _ H1 H2. unbind H1. unbind H2. congruence.
      * intros s _. apply NoDup_bind.
        -- intros f1 f2 y _ _ H1 H2.
           apply list_elem_of_singleton in H1, H2. congruence.
        -- intros f _. apply NoDup_singleton.
        -- apply (bool_decide_unpack _). vm_compute. exact I.
      * eapply NoDup_fmap_1, shapings_formats.
    + exact Hplanes.
  - apply (bool_decide_unpack _). vm_compute. exact I.
Qed.

Lemma NoDup_ids : NoDup (name <$> planes) -> NoDup (id_of <$> combos).
Proof.
  intros Hnames. destruct shapings_formats as [Hformats Hdash].
  rewrite Forall_forall in Hdash.
  apply NoDup_fmap_2_strong; [|eapply NoDup_combos, NoDup_fmap_1, Hnames].
  intros [[[p t] s] f] [[[p' t'] s'] f'] Hc Hc' Heq.
  apply elem_of_combos in Hc as (Hp & _ & Hs).
  apply elem_of_combos in Hc' as (Hp' & _ & Hs').
  unfold id_of in Heq. cbn [fst snd] in Heq.
  apply get_env_id_inj_fields in Heq as (Hn & -> & Hsf & ->); [|auto..].
  apply (NoDup_fmap_inj_on name planes) in Hn as ->; [|assumption..].
  apply (NoDup_fmap_inj_on Shaping_format shapings) in Hsf as ->;
    [reflexivity | assumption..].
Qed.

Lemma NoDup_names : NoDup (id_of <$> combos) -> NoDup (name <$> planes).
Proof.
  intros Hids.
  pose (g := fun n : string =>
          n +:+ "-HeadingControlTask-Shaping.STANDARD-FG-v0").
  apply (NoDup_fmap_1 g). rewrite <- list_fmap_compose.
  eapply sublist_NoDup; [exact Hids|].
  change (id_of <$> combos)
    with (task_types ≫= fun t => planes ≫= fun p => shapings ≫= fun s =>
            [true; false] ≫= fun f => [get_env_id p t s f]).
  unfold task_types. rewrite bind_cons. apply sublist_inserts_r.
  apply sublist_bind_head. intros p. eexists. reflexivity.
Qed.

(** X7. [get_env_id_kwargs_map] returns a map, its assertion never failing,
    exactly when the fourteen aircraft have pairwise distinct names. *)
Theorem kwargs_map_returns :
  is_Some get_env_id_kwargs_map <-> NoDup (name <$> planes).
Proof.
  rewrite get_env_id_kwargs_map_flat.
  pose proof (foldl_register combos ∅) as Hfold.
  destruct (foldl register_kwargs (Some ∅) combos) as [m|].
  - destruct Hfold as (Hids & _). split; [intros _|eauto].
    now apply NoDup_names.
  - split; [intros [? [=]]|]. intros Hnames.
    destruct Hfold as [Hdup | (c & _ & [? Hc])].
    + destruct Hdup. now apply NoDup_ids.
    + now rewrite lookup_empty in Hc.
Qed.

(** X8. When the aircraft have pairwise distinct names, the map that
    [get_env_id_kwargs_map] returns has 2184 entries; looking up the id of
    an aircraft, task class, shaping and FlightGear setting of the loops
    gives back that tuple, and every entry of the map is a tuple of the
    loops stored under its own id. *)
Theorem kwargs_map_lookup :
  NoDup (name <$> planes) ->
  exists m,
    get_env_id_kwargs_map = Some m
    /\ size m = 2184%nat
    /\ (forall p t s f,
          p ∈ planes -> t ∈ task_types -> s ∈ shapings ->
          m !! get_env_id p t s f = Some (p, t, s, f))
    /\ (forall k p t s f,
          m !! k = Some (p, t, s, f) ->
          k = get_env_id p t s f
          /\ p ∈ planes /\ t ∈ task_types /\ s ∈ shapings).
Proof.
  intros Hnames. rewrite get_env_id_kwargs_map_flat.
  pose proof (foldl_register combos ∅) as Hfold.
  destruct (foldl register_kwargs (Some ∅) combos) as [m|].
  - destruct Hfold as (_ & Hcs & Hframe & Hsize).
    exists m. split; [reflexivity|]. split; [exact Hsize|]. split.
    + intros p t s f Hp Ht Hs.
      apply (Hcs (p, t, s, f)), elem_of_combos. done.
    + intros k p t s f Hk.
      destruct (decide (k ∈ id_of <$> combos)) as [Hin|Hout].
      * apply list_elem_of_fmap in Hin as (c & Heq & Hc).
        destruct (Hcs c Hc) as [_ Hsome].
        subst k. pose proof (eq_trans (eq_sym Hsome) Hk) as Hv.
        injection Hv as ->.
        split; [reflexivity | now apply elem_of_combos in Hc].
      * rewrite Hframe, lookup_empty in Hk by exact Hout. discriminate.
  - destruct Hfold as [Hdup | (c & _ & [? Hc])].
    + destruct Hdup. now apply NoDup_ids.
    + now rewrite lookup_empty in Hc.
Qed.

End env_ids.

Section env_ids_examples.
Import utils_more.

Lemma hangar_names : NoDup (name (AircraftModule := examples.hangar)
                              <$> planes (AM := examples.hangar)).
Proof. apply (bool_decide_unpack _). vm_compute. exact I. Qed.

Lemma get_env_id_flightgear_witness :
  bool_decide
    (get_env_id (AM := examples.hangar) "C172" classes.TrajectoryTask
       STANDARD true
     = get_env_id (AM := examples.hangar) "C172" classes.TrajectoryTask
         STANDARD false)
  = false.
Proof. apply bool_decide_eq_false, get_env_id_flightgear. Defined.

Lemma get_env_id_inj_witness :
  name (AircraftModule := examples.hangar) "J3-Cub" = "J3-Cub"
  /\ classes.TurnHeadingControlTask = classes.TurnHeadingControlTask
  /\ Shaping_format (stage "stage7") = Shaping_format (stage "stage7")
  /\ false = false.
Proof.
  apply (get_env_id_inj (AM := examples.hangar) "J3-Cub" "J3-Cub"
           classes.TurnHeadingControlTask classes.TurnHeadingControlTask
           (stage "stage7") (stage "stage7") false false);
    reflexivity.
Defined.

Lemma kwargs_map_lookup_witness :
  exists m,
    get_env_id_kwargs_map (AM := examples.hangar) = Some m
    /\ size m = 2184%nat
    /\ m !! "B747-TrajectoryTask-Shaping.EXTRA-NoFG-v0"
       = Some ("B747", classes.TrajectoryTask, EXTRA, false).
Proof.
  destruct (kwargs_map_lookup (AM := examples.hangar) hangar_names)
    as (m & Hmap & Hsize & Hlookup & _).
  exists m. split; [exact Hmap|]. split; [exact Hsize|].
  apply (Hlookup "B747" classes.TrajectoryTask EXTRA false).
  - apply (bool_decide_unpack _). vm_compute. exact I.
  - apply (bool_decide_unpack _). vm_compute. exact I.
  - unfold shapings. apply elem_of_app. left. right. left.
Defined.

End env_ids_examples.

(** ** [TrajectoryTask], further *)

Section trajectory_more.
Context {FT : FlightTask} {SC : SimulationControls} {PB : PropertyBounds}.
Import TrajectoryTask.
Local Open Scope R_scope.

(** X15. When the per-step update returns, it has written the position
    error, the altitude error and the step counter only: every other
    property of the store is what it was. *)
Theorem update_writes_three_properties (self : t) sim sim' :
  _update_custom_properties self sim = Ok sim' ->
  forall p : prp.Property,
    p <> position_error_mt -> p <> altitude_error_ft ->
    p <> steps_left self ->
    sim' p = sim p.
Proof.
  unfold _update_custom_properties, _update_altitude_error.
  destruct (_get_target_position self "z") as [target_z|e]; cbn [bind];
    [|discriminate].
  intros [= <-] p Hpos Halt Hsteps.
  unfold _decrement_steps_left, _update_position_error.
  now rewrite !sim_set_ne.
Qed.

Lemma _get_target_position_unset (self : t) flag :
  init_ecef_position self = None ->
  flag = "x" \/ flag = "y" \/ flag = "z" ->
  _get_target_position self flag = Raise (AttributeError "init_ecef_position").
Proof.
  intros Hinit Hflag. unfold _get_target_position, get_init_ecef_position.
  rewrite Hinit. destruct Hflag as [-> | [-> | ->]]; reflexivity.
Qed.

(** X16. A task that the constructor has just returned cannot be stepped:
    before the first episode start the update hook, and
    [_get_target_position] on each of ["x"], ["y"], ["z"], raise
    [AttributeError]; after an episode start the update hook returns. *)
Theorem update_before_episode shaping step_frequency_hz aircraft
    episode_time_s positive_rewards (self : t) (sim : Simulation) :
  __init__ shaping step_frequency_hz aircraft episode_time_s
    positive_rewards = Ok self ->
  _update_custom_properties self sim
  = Raise (AttributeError "init_ecef_position")
  /\ (forall flag,
        flag = "x" \/ flag = "y" \/ flag = "z" ->
        _get_target_position self flag
        = Raise (AttributeError "init_ecef_position"))
  /\ exists self' sim0 sim1,
       _new_episode_init self sim = Ok (self', sim0)
       /\ _update_custom_properties self' sim0 = Ok sim1.
Proof.
  intros Hnew.
  assert (Hinit : init_ecef_position self = None).
  { unfold __init__ in Hnew.
    destruct (make_assessor _ shaping); cbn in Hnew; [|discriminate].
    now injection Hnew as <-. }
  split; [|split].
  - unfold _update_custom_properties, _update_altitude_error.
    rewrite _get_target_position_unset by auto. reflexivity.
  - intros flag Hflag. now apply _get_target_position_unset.
  - eexists _, _, _. split; [apply _new_episode_init_ok|].
    eapply _update_custom_properties_started. reflexivity.
Qed.

Lemma sqrt_lt_50 s : 0 <= s -> sqrt s < 50 <-> s < 2500.
Proof.
  intros Hs. replace 50 with (sqrt 2500).
  - split; [apply sqrt_lt_0_alt | intros; apply sqrt_lt_1_alt; lra].
  - replace 2500 with (50 * 50) by lra. apply sqrt_square. lra.
Qed.

Lemma Rabs_gt x b : Rabs x > b <-> x > b \/ - x > b.
Proof. unfold Rabs. destruct (Rcase_abs x); split; intros; lra. Qed.

Lemma altitude_after_update (self : t) (sim : Simulation) (x y z : R) :
  init_ecef_position self = Some [x; y; z] ->
  exists sim',
    _update_custom_properties self sim = Ok sim'
    /\ sim' (steps_left self) = sim (steps_left self) - 1
    /\ (_altitude_out_of_bounds self sim' = true
        <-> sim prp.ecef_z_ft > z + 1000 \/ sim prp.ecef_z_ft < z - 1000).
Proof.
  intros Hinit. eexists.
  split; [exact (_update_custom_properties_started self sim x y z Hinit)|].
  split; [reflexivity|].
  rewrite _altitude_out_of_bounds_true.
  change (Rabs (sim prp.ecef_z_ft - (TARGET_zPOSITION_FT + z))
          > MAX_ALTITUDE_DEVIATION_FT
          <-> sim prp.ecef_z_ft > z + 1000 \/ sim prp.ecef_z_ft < z - 1000).
  rewrite Rabs_gt.
  unfold TARGET_zPOSITION_FT, MAX_ALTITUDE_DEVIATION_FT. lra.
Qed.

(** X17. In an episode, after the update of a step: the navigation
    trigger holds exactly when the aircraft is horizontally less than 50
    from the target (its squared distance is below 50 * 50); the position
    error is 0 exactly at the target; and the altitude trigger holds exactly
    when [ecef_z] is more than 1000 above or below the [z] of the anchor. *)
Theorem triggers_after_update (self : t) (sim : Simulation) (x y z : R) :
  init_ecef_position self = Some [x; y; z] ->
  exists sim',
    _update_custom_properties self sim = Ok sim'
    /\ (_arrive_at_navigation_point self sim' = true
        <-> (sim prp.ecef_x_ft - sim target_Xposition)
              * (sim prp.ecef_x_ft - sim target_Xposition)
            + (sim prp.ecef_y_ft - sim target_Yposition)
                * (sim prp.ecef_y_ft - sim target_Yposition)
            < 50 * 50)
    /\ (sim' position_error_mt = 0
        <-> sim prp.ecef_x_ft = sim target_Xposition
            /\ sim prp.ecef_y_ft = sim target_Yposition)
    /\ (_altitude_out_of_bounds self sim' = true
        <-> sim prp.ecef_z_ft > z + 1000 \/ sim prp.ecef_z_ft < z - 1000).
Proof.
  intros Hinit. eexists.
  split; [exact (_update_custom_properties_started self sim x y z Hinit)|].
  set (dx := sim prp.ecef_x_ft - sim target_Xposition).
  set (dy := sim prp.ecef_y_ft - sim target_Yposition).
  assert (Hsq : 0 <= dx * dx + dy * dy) by nra.
  split; [|split].
  - rewrite _arrive_at_navigation_point_true.
    change (sqrt (dx * dx + dy * dy) < 50 <-> dx * dx + dy * dy < 50 * 50).
    rewrite sqrt_lt_50 by exact Hsq. lra.
  - change (sqrt (dx * dx + dy * dy) = 0
            <-> sim prp.ecef_x_ft = sim target_Xposition
                /\ sim prp.ecef_y_ft = sim target_Yposition).
    split.
    + intros H0. apply sqrt_eq_0 in H0; [|exact Hsq].
      assert (Hdx : dx = 0) by nra. assert (Hdy : dy = 0) by nra.
      unfold dx, dy in *. lra.
    + intros [Hx Hy]. replace (dx * dx + dy * dy) with 0.
      * apply sqrt_0.
      * unfold dx, dy. rewrite Hx, Hy. lra.
  - destruct (altitude_after_update self sim x y z Hinit)
      as (sim' & Hupd & _ & Halt).
    rewrite (_update_custom_properties_started self sim x y z Hinit) in Hupd.
    injection Hupd as <-. exact Halt.
Qed.

(** X18. The update of a step followed by the terminal override, in an
    episode: with [positive_rewards = false], when [ecef_z] is more than
    1000 away from the [z] of the anchor the step is terminal and the reward
    becomes minus the value that [steps_left] had before the step, on both
    fields; when [ecef_z] is within 1000 of it the reward is kept, whatever
    else ends the episode. *)
Theorem step_override (self : t) (sim : Simulation) (x y z : R)
    (reward : rewards.Reward) :
  init_ecef_position self = Some [x; y; z] ->
  exists sim',
    _update_custom_properties self sim = Ok sim'
    /\ (positive_rewards self = false ->
        sim prp.ecef_z_ft > z + 1000 \/ sim prp.ecef_z_ft < z - 1000 ->
        _is_terminal self sim' = true
        /\ _reward_terminal_override self reward sim'
           = rewards.RewardStub (- sim (steps_left self))
               (- sim (steps_left self)))
    /\ (z - 1000 <= sim prp.ecef_z_ft <= z + 1000 ->
        _reward_terminal_override self reward sim' = reward).
Proof.
  intros Hinit.
  destruct (altitude_after_update self sim x y z Hinit)
    as (sim' & Hupd & Hsteps & Halt).
  exists sim'. split; [exact Hupd|]. split.
  - intros Hneg Hout. apply Halt in Hout. split.
    + apply _is_terminal_true. right. right. left.
      now apply (proj1 (_altitude_out_of_bounds_true self sim')).
    + unfold _reward_terminal_override, _get_out_of_bounds_reward.
      rewrite Hout, Hneg. cbn [andb negb]. rewrite Hsteps.
      f_equal; lra.
  - intros Hin. unfold _reward_terminal_override.
    destruct (_altitude_out_of_bounds self sim'); [|reflexivity].
    destruct (proj1 Halt eq_refl); lra.
Qed.

Lemma first_update (self : t) (sim : Simulation) :
  exists self' sim0 sim1,
    _new_episode_init self sim = Ok (self', sim0)
    /\ _update_custom_properties self' sim0 = Ok sim1
    /\ steps_left self' = steps_left self
    /\ sim1 altitude_error_ft = 0
    /\ sim1 position_error_mt = sqrt 68000000
    /\ sim1 (steps_left self) = IZR (episode_steps self) - 1
    /\ sim1 last_assessment_reward = sim0 last_assessment_reward.
Proof.
  eexists _, _, _. split; [apply _new_episode_init_ok|].
  split; [eapply _update_custom_properties_started; reflexivity|].
  split; [reflexivity|]. cbv zeta.
  set (sim0 := set_throttle_mixture_controls _ _ _).
  split; [|split; [|split; reflexivity]].
  - rewrite sim_set_ne by discriminate. rewrite sim_set_eq.
    rewrite !sim_set_ne by discriminate.
    unfold TARGET_zPOSITION_FT. lra.
  - rewrite !sim_set_ne by discriminate. rewrite sim_set_eq.
    unfold prp.Norm, horizontal_offset, prp.Vector2_sub. cbn [prp.vx prp.vy].
    rewrite sim_set_eq.
    rewrite (sim_set_ne _ _ target_Xposition) by discriminate.
    rewrite sim_set_eq. rewrite !sim_set_ne by discriminate.
    unfold TARGET_xPOSITION_FT, TARGET_yPOSITION_FT. f_equal. lra.
Qed.

(** X19. The first step of an episode, the aircraft not having moved: the
    altitude error is 0, the position error is the length of the offset
    (2000, -8000), neither the altitude trigger nor the navigation trigger
    holds, and the step is terminal exactly when the episode has at most one
    step or the stored assessment reward is below [MIN_STATE_QUALITY]. *)
Theorem first_step (self : t) (sim : Simulation) :
  exists self' sim0 sim1,
    _new_episode_init self sim = Ok (self', sim0)
    /\ _update_custom_properties self' sim0 = Ok sim1
    /\ sim1 altitude_error_ft = 0
    /\ 0 <= sim1 position_error_mt
    /\ sim1 position_error_mt * sim1 position_error_mt = 68000000
    /\ _altitude_out_of_bounds self' sim1 = false
    /\ _arrive_at_navigation_point self' sim1 = false
    /\ (_is_terminal self' sim1 = true
        <-> (episode_steps self <= 1)%Z
            \/ sim0 last_assessment_reward < MIN_STATE_QUALITY).
Proof.
  destruct (first_update self sim)
    as (self' & sim0 & sim1 & Hstart & Hupd & Hsame & Halt & Hpos & Hsteps
        & Hquality).
  exists self', sim0, sim1.
  assert (Hsq : sqrt 68000000 * sqrt 68000000 = 68000000)
    by (apply sqrt_sqrt; lra).
  assert (Hge : 0 <= sqrt 68000000) by apply sqrt_pos.
  assert (Hfar : ~ sqrt 68000000 < 50) by nra.
  assert (Hout : _altitude_out_of_bounds self' sim1 = false).
  { apply not_true_is_false. rewrite _altitude_out_of_bounds_true, Halt.
    rewrite Rabs_R0. unfold MAX_ALTITUDE_DEVIATION_FT. lra. }
  assert (Harrive : _arrive_at_navigation_point self' sim1 = false).
  { apply not_true_is_false.
    rewrite _arrive_at_navigation_point_true, Hpos.
    unfold NAVIGATION_TOLERANCE. exact Hfar. }
  split; [exact Hstart|]. split; [exact Hupd|]. split; [exact Halt|].
  rewrite Hpos. split; [exact Hge|]. split; [exact Hsq|].
  split; [exact Hout|]. split; [exact Harrive|].
  rewrite _is_terminal_true, Hsame, Hsteps, Hquality, Halt, Hpos.
  rewrite Rabs_R0. unfold MAX_ALTITUDE_DEVIATION_FT, NAVIGATION_TOLERANCE.
  split.
  - intros [Hs | [Hq | [Ha | Hp]]]; [left | right; exact Hq | lra | tauto].
    apply le_IZR. lra.
  - intros [Hs | Hq]; [left | right; left; exact Hq].
    apply IZR_le in Hs. lra.
Qed.

Lemma episode_steps_left (self : t) (sim : Simulation) physics :
  Forall keeps_task_properties physics ->
  exists self' sim0 sim',
    _new_episode_init self sim = Ok (self', sim0)
    /\ run_steps self' physics sim0 = Ok sim'
    /\ steps_left self' = steps_left self
    /\ sim' (steps_left self)
       = IZR (episode_steps self) - INR (length physics).
Proof.
  intros Hkeep. rewrite _new_episode_init_ok. cbv zeta.
  match goal with
  | |- context [Ok (?s, ?m)] =>
      destruct (run_steps_started s _ _ _ physics eq_refl Hkeep m)
        as (sim' & Hrun & Hsteps & _)
  end.
  eexists _, _, sim'. split; [reflexivity|]. split; [exact Hrun|].
  split; [reflexivity|]. exact Hsteps.
Qed.

(** X20. After [n] steps of an episode [steps_left] is its maximum minus
    [n], for every [n]: from the step that exhausts the budget on every
    step is terminal, and past it [steps_left] is below the minimum that its
    property declares, the counter not being clamped. *)
Theorem steps_left_unclamped (self : t) (sim : Simulation) physics :
  Forall keeps_task_properties physics ->
  exists self' sim0 sim',
    _new_episode_init self sim = Ok (self', sim0)
    /\ run_steps self' physics sim0 = Ok sim'
    /\ sim' (steps_left self')
       = prp.max (steps_left self') - INR (length physics)
    /\ ((episode_steps self <= Z.of_nat (length physics))%Z ->
        _is_terminal self' sim' = true)
    /\ ((episode_steps self < Z.of_nat (length physics))%Z ->
        sim' (steps_left self') < prp.min (steps_left self')).
Proof.
  intros Hkeep.
  destruct (episode_steps_left self sim physics Hkeep)
    as (self' & sim0 & sim' & Hstart & Hrun & Hsame & Hsteps).
  exists self', sim0, sim'. rewrite Hsame.
  split; [exact Hstart|]. split; [exact Hrun|]. split; [exact Hsteps|].
  rewrite INR_IZR_INZ in Hsteps. split.
  - intros Hle. apply _is_terminal_true. left. rewrite Hsame, Hsteps.
    apply IZR_le in Hle. lra.
  - intros Hlt. rewrite Hsteps. cbn. apply IZR_lt in Hlt. lra.
Qed.

(** X21. After [n] steps of an episode the out-of-bounds reward has equal
    fields, [-(1 + (episode_steps - n))]; for [n] from 1 to the number of
    steps of the episode it lies between [- episode_steps] and [-1]. *)
Theorem out_of_bounds_reward_range (self : t) (sim : Simulation) physics :
  Forall keeps_task_properties physics ->
  exists self' sim0 sim',
    _new_episode_init self sim = Ok (self', sim0)
    /\ run_steps self' physics sim0 = Ok sim'
    /\ (let r := _get_out_of_bounds_reward self' sim' in
        rewards.agent_reward r = rewards.assessment_reward r
        /\ rewards.agent_reward r
           = - (1 + (IZR (episode_steps self) - INR (length physics)))
        /\ ((1 <= Z.of_nat (length physics) <= episode_steps self)%Z ->
            - IZR (episode_steps self) <= rewards.agent_reward r <= -1)).
Proof.
  intros Hkeep.
  destruct (episode_steps_left self sim physics Hkeep)
    as (self' & sim0 & sim' & Hstart & Hrun & Hsame & Hsteps).
  exists self', sim0, sim'.
  split; [exact Hstart|]. split; [exact Hrun|].
  unfold _get_out_of_bounds_reward. cbn [rewards.agent_reward
    rewards.assessment_reward]. rewrite Hsame, Hsteps.
  split; [reflexivity|]. split; [lra|].
  rewrite INR_IZR_INZ. intros [Hlo Hhi].
  apply IZR_le in Hlo, Hhi. lra.
Qed.

(** X22. Whenever [make_assessor] returns an assessor: its base components
    are not potential based, its shaping components all are, the names of
    its components are pairwise distinct, every component has the state
    variables of the task, target 0 and a positive scaling factor, and its
    [positive_rewards] is that of the task. *)
Theorem make_assessor_invariant (self : t) (shaping : Shaping)
    (a : assessors.AssessorImpl) :
  make_assessor self shaping = Ok a ->
  Forall (fun c => rewards.is_potential_based c = false)
    (assessors.base_components a)
  /\ Forall (fun c => rewards.is_potential_based c = true)
       (assessors.potential_components a)
  /\ NoDup (rewards.name <$> assessors.base_components a
                               ++ assessors.potential_components a)
  /\ Forall (fun c => rewards.state_variables c = state_variables self
                      /\ rewards.target c = 0
                      /\ 0 < rewards.scaling_factor c)
       (assessors.base_components a ++ assessors.potential_components a)
  /\ assessors.positive_rewards a = positive_rewards self.
Proof.
  assert (Hnames : forall l : list string,
            bool_decide (NoDup l) = true -> NoDup l)
    by (intros l; apply bool_decide_eq_true).
  destruct shaping; cbn; intros [= <-]; cbn.
  - split; [repeat constructor|]. split; [constructor|].
    split; [now apply Hnames|]. split; [|reflexivity].
    repeat (apply Forall_cons_2;
              [split; [reflexivity|]; split; [reflexivity|]; cbn;
               unfold ALTITUDE_SCALING_FT, POSITION_SCALING_MT; lra|]).
    apply Forall_nil_2.
  - split; [repeat constructor|]. split; [repeat constructor|].
    split; [now apply Hnames|]. split; [|reflexivity].
    repeat (apply Forall_cons_2;
              [split; [reflexivity|]; split; [reflexivity|]; cbn;
               unfold ALTITUDE_SCALING_FT, POSITION_SCALING_MT,
                 ROLL_ERROR_SCALING_RAD, SIDESLIP_ERROR_SCALING_DEG; lra|]).
    apply Forall_nil_2.
Qed.
End trajectory_more.

Section trajectory_more_examples.
Import TrajectoryTask.
Local Open Scope R_scope.

Lemma update_writes_three_properties_witness :
  let sim := examples.store [(prp.ecef_x_ft, 3); (prp.roll_rad, 1 / 4)] in
  exists sim',
    _update_custom_properties (PB := examples.bounds)
      (examples.started_task true) sim = Ok sim'
    /\ sim' prp.ecef_x_ft = 3
    /\ sim' prp.roll_rad = 1 / 4.
Proof.
  intros sim.
  pose proof (_update_custom_properties_started (PB := examples.bounds)
                (examples.started_task true) sim 100 200 300 eq_refl)
    as Hupd.
  eexists. split; [exact Hupd|].
  split;
    apply (update_writes_three_properties (PB := examples.bounds)
             _ _ _ Hupd);
    discriminate.
Defined.

Lemma update_before_episode_witness :
  _update_custom_properties (PB := examples.bounds) examples.built_task
    (examples.store [])
  = Raise (AttributeError "init_ecef_position").
Proof.
  refine (proj1 (update_before_episode (FT := examples.flight_task)
                   (SC := examples.controls) (PB := examples.bounds)
                   STANDARD 5 examples.plane 60 true examples.built_task
                   (examples.store []) _)).
  reflexivity.
Defined.

Lemma triggers_after_update_witness :
  let sim := examples.store [(prp.ecef_x_ft, 3); (prp.ecef_y_ft, 4);
                             (prp.ecef_z_ft, 1500)] in
  exists sim',
    _update_custom_properties (PB := examples.bounds)
      (examples.started_task true) sim = Ok sim'
    /\ _arrive_at_navigation_point (examples.started_task true) sim'
       = true
    /\ _altitude_out_of_bounds (PB := examples.bounds)
         (examples.started_task true) sim' = true.
Proof.
  intros sim.
  destruct (triggers_after_update (PB := examples.bounds)
              (examples.started_task true) sim 100 200 300 eq_refl)
    as (sim' & Hupd & Harrive & _ & Haltitude).
  exists sim'. split; [exact Hupd|]. split.
  - apply Harrive.
    change ((3 - 0) * (3 - 0) + (4 - 0) * (4 - 0) < 50 * 50). lra.
  - apply Haltitude. left. change (1500 > 300 + 1000). lra.
Defined.

Lemma step_override_witness :
  let sim := examples.store [(prp.ecef_z_ft, 1500);
                             (prp.info_steps_left, 7)] in
  exists sim',
    _update_custom_properties (PB := examples.bounds)
      (examples.started_task false) sim = Ok sim'
    /\ _reward_terminal_override (PB := examples.bounds)
         (examples.started_task false) (rewards.RewardStub (1 / 2) (1 / 2))
         sim'
       = rewards.RewardStub (- 7) (- 7).
Proof.
  intros sim.
  destruct (step_override (PB := examples.bounds)
              (examples.started_task false) sim 100 200 300
              (rewards.RewardStub (1 / 2) (1 / 2)) eq_refl)
    as (sim' & Hupd & Hout & _).
  exists sim'. split; [exact Hupd|].
  refine (proj2 (Hout eq_refl _)).
  left. change (1500 > 300 + 1000). lra.
Defined.

Lemma steps_left_unclamped_witness :
  let physics := replicate 301 (move_to 1 2 3) in
  exists self' sim0 sim',
    _new_episode_init (FT := examples.flight_task) (SC := examples.controls)
      (examples.task true) (examples.store []) = Ok (self', sim0)
    /\ run_steps (PB := examples.bounds) self' physics sim0 = Ok sim'
    /\ _is_terminal (PB := examples.bounds) self' sim' = true
    /\ sim' prp.info_steps_left < 0.
Proof.
  intros physics.
  assert (Hkeep : Forall keeps_task_properties physics)
    by apply Forall_replicate, move_to_keeps.
  destruct (steps_left_unclamped (FT := examples.flight_task)
              (SC := examples.controls) (PB := examples.bounds)
              (examples.task true) (examples.store []) physics Hkeep)
    as (self' & sim0 & sim' & Hstart & Hrun & _ & Hterminal & Hbelow).
  exists self', sim0, sim'.
  split; [exact Hstart|]. split; [exact Hrun|].
  assert (Hlen : (300 < Z.of_nat (length physics))%Z).
  { unfold physics. rewrite length_replicate. reflexivity. }
  split; [apply Hterminal; cbn; lia | apply Hbelow; exact Hlen].
Defined.

Lemma out_of_bounds_reward_range_witness :
  let physics := [move_to 1 2 3; move_to 4 5 6] in
  exists self' sim0 sim',
    _new_episode_init (FT := examples.flight_task) (SC := examples.controls)
      (examples.task false) (examples.store []) = Ok (self', sim0)
    /\ run_steps (PB := examples.bounds) self' physics sim0 = Ok sim'
    /\ - 300
       <= rewards.agent_reward (_get_out_of_bounds_reward self' sim')
       <= - 1.
Proof.
  intros physics.
  assert (Hkeep : Forall keeps_task_properties physics)
    by (repeat constructor; apply move_to_keeps).
  destruct (out_of_bounds_reward_range (FT := examples.flight_task)
              (SC := examples.controls) (PB := examples.bounds)
              (examples.task false) (examples.store []) physics Hkeep)
    as (self' & sim0 & sim' & Hstart & Hrun & _ & _ & Hrange).
  exists self', sim0, sim'.
  split; [exact Hstart|]. split; [exact Hrun|].
  apply Hrange. cbn. lia.
Defined.

Lemma make_assessor_invariant_witness :
  exists a,
    make_assessor (PB := examples.bounds) (examples.task true) EXTRA = Ok a
    /\ NoDup (rewards.name <$> assessors.base_components a
                                 ++ assessors.potential_components a)
    /\ assessors.positive_rewards a = true.
Proof.
  eexists. split; [reflexivity|].
  destruct (make_assessor_invariant (PB := examples.bounds)
              (examples.task true) EXTRA _ eq_refl)
    as (_ & _ & Hnames & _ & Hflag).
  split; [exact Hnames | exact Hflag].
Defined.

End trajectory_more_examples.

(** ** Initial conditions and random draws, further *)

Section initial_conditions_more.
Context {FT : FlightTask} {PB : PropertyBounds}.
Local Open Scope R_scope.

(** X23. The keys of the initial conditions of [TrajectoryTask] are the
    keys of the base conditions and the eight keys of the task, no other;
    [TurnHeadingControlTask] adds no key but [initial_heading_deg] to the
    keys of its parent's mapping. *)
Theorem get_initial_conditions_dom (self : TrajectoryTask.t) :
  dom (TrajectoryTask.get_initial_conditions self)
  = list_to_set extra_keys ∪ dom base_initial_conditions
  /\ (forall k, is_Some (TrajectoryTask.get_initial_conditions self !! k)
                <-> k ∈ extra_keys \/ is_Some (base_initial_conditions !! k))
  /\ forall (T : Type) (super : T -> gmap prp.Property R) (task : T) u,
       dom (TurnHeadingControlTask.get_initial_conditions super task u)
       = {[prp.initial_heading_deg]} ∪ dom (super task).
Proof.
  assert (Hdom : dom (TrajectoryTask.get_initial_conditions self)
                 = list_to_set extra_keys ∪ dom base_initial_conditions).
  { unfold TrajectoryTask.get_initial_conditions, dict_merge, dict_literal.
    rewrite dom_union_L. f_equal; reflexivity. }
  split; [exact Hdom|]. split.
  - intros k. rewrite <- elem_of_dom, Hdom, elem_of_union, elem_of_dom.
    now rewrite elem_of_list_to_set.
  - intros T super task u.
    unfold TurnHeadingControlTask.get_initial_conditions.
    apply dom_insert_L.
Qed.

(** X24. For every draw [u] of the generator in [[0, 1)], the track that
    [_get_target_track] returns lies between the two bounds of
    [target_track_deg], in whichever order they are; with the bounds in
    order it lies in [[min, max]]. *)
Theorem get_target_track_between
    (target_track_deg : prp.BoundedProperty) (u : R) :
  0 <= u < 1 ->
  let track :=
    TurnHeadingControlTask._get_target_track target_track_deg u in
  Rmin (prp.min target_track_deg) (prp.max target_track_deg) <= track
  /\ track <= Rmax (prp.min target_track_deg) (prp.max target_track_deg)
  /\ (prp.min target_track_deg <= prp.max target_track_deg ->
      prp.min target_track_deg <= track <= prp.max target_track_deg).
Proof.
  intros [Hlo Hhi].
  unfold TurnHeadingControlTask._get_target_track, random.uniform,
    Rmin, Rmax.
  destruct (Rle_dec (prp.min target_track_deg) (prp.max target_track_deg));
    repeat split; intros; nra.
Qed.

End initial_conditions_more.

Section initial_conditions_more_examples.
Local Open Scope R_scope.

Lemma get_target_track_between_witness :
  let target_track_deg :=
    {| prp.name := prp.other "target/track-deg";
       prp.min := 0; prp.max := 360 |} in
  0 <= TurnHeadingControlTask._get_target_track target_track_deg (1 / 4)
  <= 360.
Proof.
  intros target_track_deg.
  refine (proj2 (proj2 (get_target_track_between target_track_deg (1 / 4)
                          _)) _).
  - lra.
  - cbn. lra.
Defined.

End initial_conditions_more_examples.
